(** * lldb_pyutils: a shallow embedding of [lldb_pyutils.py]

    The script is an lldb plugin written for lldb's embedded Python 2
    interpreter (it relies on the builtin [long]).  Everything it knows about
    the inferior comes from the host debugger, so the host is an abstract
    interface here ([Host]); the Python side is a state-and-exception monad
    over a [World] that holds the host's state, the module namespace and the
    trace of observable effects (frames fetched, expressions evaluated in the
    inferior, lines printed). *)

From Stdlib Require Import ZArith Ascii List Lia Sorted.
From Stdlib Require String.
From stdpp Require Import base decidable option list strings pretty gmap.

Local Open Scope Z_scope.

(** ** Python strings *)

Module PyStr.

(** The one-character string searched for by [gist_extr]. *)
Definition dquote : ascii := "034"%char.

Definition len (s : string) : Z := Z.of_nat (String.length s).

(** [s.find(c)] for a one-character needle: lowest index, or [-1]. *)
Fixpoint find (s : string) (c : ascii) : Z :=
  match s with
  | EmptyString => -1
  | String a s' =>
      if Ascii.eqb a c then 0
      else let r := find s' c in if r <? 0 then -1 else r + 1
  end.

(** [s.rfind(c)] for a one-character needle: highest index, or [-1]. *)
Fixpoint rfind (s : string) (c : ascii) : Z :=
  match s with
  | EmptyString => -1
  | String a s' =>
      let r := rfind s' c in
      if 0 <=? r then r + 1
      else if Ascii.eqb a c then 0 else -1
  end.

(** Index adjustment of a slice bound: a negative bound counts from the end,
    and the result is clamped to [0 .. len]. *)
Definition clamp (n i : Z) : Z :=
  let i := if i <? 0 then i + n else i in
  if i <? 0 then 0 else if n <? i then n else i.

(** [s[start:stop]] *)
Definition slice (s : string) (start stop : Z) : string :=
  let n := len s in
  let lo := clamp n start in
  let hi := clamp n stop in
  String.substring (Z.to_nat lo) (Z.to_nat (hi - lo)) s.

(** Does [c] occur in [s]? *)
Fixpoint occurs (c : ascii) (s : string) : bool :=
  match s with
  | EmptyString => false
  | String a s' => Ascii.eqb a c || occurs c s'
  end.

(** [s[0:-1]] written structurally: [s] without its last character. *)
Fixpoint drop_last (s : string) : string :=
  match s with
  | EmptyString => EmptyString
  | String a EmptyString => EmptyString
  | String a s' => String a (drop_last s')
  end.

(** *** [str.format]

    The subset the script uses: replacement fields [{}] (automatic numbering)
    and [{name}] (keyword), with neither escapes nor format specifications.
    [None] stands for the [IndexError] / [KeyError] / [ValueError] of a
    malformed call. *)

Fixpoint kwarg (name : string) (kw : list (string * string)) : option string :=
  match kw with
  | [] => None
  | (k, v) :: kw' => if String.eqb k name then Some v else kwarg name kw'
  end.

Fixpoint format_from (tpl : string) (field : option string)
    (args : list string) (kw : list (string * string)) : option string :=
  match tpl, field with
  | EmptyString, None => Some EmptyString
  | EmptyString, Some _ => None
  | String c tpl', None =>
      if Ascii.eqb c "{" then format_from tpl' (Some EmptyString) args kw
      else
        match format_from tpl' None args kw with
        | Some r => Some (String c r)
        | None => None
        end
  | String c tpl', Some name =>
      if Ascii.eqb c "}" then
        match name with
        | EmptyString =>
            match args with
            | a :: args' =>
                match format_from tpl' None args' kw with
                | Some r => Some (a +:+ r)
                | None => None
                end
            | [] => None
            end
        | _ =>
            match kwarg name kw with
            | Some v =>
                match format_from tpl' None args kw with
                | Some r => Some (v +:+ r)
                | None => None
                end
            | None => None
            end
        end
      else format_from tpl' (Some (name +:+ String c EmptyString)) args kw
  end.

Definition format (tpl : string) (args : list string)
    (kw : list (string * string)) : option string :=
  format_from tpl None args kw.

End PyStr.

(** ** [gist_extr] *)

Definition gist_extr (s : string) : string :=
  PyStr.slice s (PyStr.find s PyStr.dquote + 1) (PyStr.rfind s PyStr.dquote).


(** ** The host debugger

    Handles ([SBDebugger] ... [SBValue]) are the proxy objects the lldb
    scripting bridge hands to Python; every query is answered by the host
    from its current state.  While a command runs the inferior is stopped, so
    the queries read one state; the only request of the script that changes
    the host is [HandleCommand].  An expression evaluated in the inferior is
    recorded in the trace. *)

Class Host := {
  HostState : Type;
  SBDebugger : Type;
  SBTarget : Type;
  SBProcess : Type;
  SBThread : Type;
  SBFrame : Type;
  SBValue : Type;
  (** [lldb.debugger] *)
  lldb_debugger : SBDebugger;
  GetSelectedTarget : HostState -> SBDebugger -> SBTarget;
  GetProcess : HostState -> SBTarget -> SBProcess;
  GetSelectedThread : HostState -> SBProcess -> SBThread;
  GetNumFrames : HostState -> SBThread -> N;
  GetFrameAtIndex : HostState -> SBThread -> N -> SBFrame;
  GetFunctionName : HostState -> SBFrame -> option string;
  GetFrameID : HostState -> SBFrame -> N;
  GetValueForVariablePath : HostState -> SBFrame -> string -> SBValue;
  EvaluateExpression : HostState -> SBFrame -> string -> SBValue;
  GetChildMemberWithName : HostState -> SBValue -> string -> SBValue;
  GetValueAsUnsigned : HostState -> SBValue -> N;
  GetValue : HostState -> SBValue -> option string;
  HandleCommand : HostState -> SBDebugger -> string -> HostState
}.

(** The name under which lldb imports the script: the file is
    [lldb_pyutils.py]. *)
Definition module_name : string := "lldb_pyutils".

(** Module-level bindings, as left by executing the module body. *)
Inductive PyGlobal :=
| GModule (name : string)
| GClass (name : string) (bases : list string) (attrs : list string)
| GFunction (name : string) (params : list string)
| GCommands (cmds : list (string * string)).

Definition module_namespace : gmap string PyGlobal :=
  list_to_map
    [ ("lldb", GModule "lldb");
      ("NullPyObjectPtr", GClass "NullPyObjectPtr" ["RuntimeError"] []);
      ("PyObjectPtr",
        GClass "PyObjectPtr" ["object"]
          ["_typename"; "__init__"; "field"; "pyop_field"; "write_field_repr";
           "get_truncated_repr"; "type"; "is_null"; "is_optimized_out";
           "safe_tp_name"; "proxyval"; "write_repr"; "subclass_from_type";
           "from_pyobject_ptr"; "get_lldb_type"; "as_address"]);
      ("Evaluate_PyObject_AsUTF8",
        GFunction "Evaluate_PyObject_AsUTF8" ["fr"; "obj"]);
      ("Evaluate_LineNo", GFunction "Evaluate_LineNo" ["fr"; "obj"]);
      ("gist_extr", GFunction "gist_extr" ["s"]);
      ("is_evalframeex", GFunction "is_evalframeex" ["frame"]);
      ("py3bt",
        GFunction "py3bt" ["debugger"; "command"; "result"; "dict"; "thread"]);
      ("CMDS", GCommands [("py3-bt", "py3bt")]);
      ("__lldb_init_module",
        GFunction "__lldb_init_module" ["debugger"; "dict"]) ].

Section Script.
Context `{Host}.

(** Values a caller may pass for an argument the script does not constrain. *)
Inductive PyArg :=
| PyNone
| PyString (s : string)
| PyThread (t : SBThread).

(** [class PyObjectPtr]: a wrapper around one [SBValue]. *)
Record PyObjectPtr := { _SBValue : SBValue }.

Inductive Exn :=
| NullPyObjectPtr (p : PyObjectPtr)
| NameError (name : string)
| TypeError
| FormatError.

Inductive Event :=
| EvFrame (t : SBThread) (i : N)
| EvEval (fr : SBFrame) (expr : string)
| EvPrint (line : string).

Record World := {
  host : HostState;
  globals : gmap string PyGlobal;
  trace : list Event
}.

Inductive Result (A : Type) :=
| Ok (a : A)
| Raised (e : Exn).
Global Arguments Ok {A} a.
Global Arguments Raised {A} e.

Definition Py (A : Type) : Type := World -> Result A * World.

Definition ret {A} (a : A) : Py A := fun w => (Ok a, w).

Definition bind {A B} (m : Py A) (k : A -> Py B) : Py B :=
  fun w =>
    match m w with
    | (Ok a, w') => k a w'
    | (Raised e, w') => (Raised e, w')
    end.

Definition raise {A} (e : Exn) : Py A := fun w => (Raised e, w).

(** A query answered by the host from its current state. *)
Definition ask {A} (f : HostState -> A) : Py A :=
  fun w => (Ok (f (host w)), w).

Definition emit (e : Event) : Py unit :=
  fun w =>
    (Ok tt, {| host := host w; globals := globals w; trace := trace w ++ [e] |}).

(** A request that changes the host. *)
Definition tell (f : HostState -> HostState) : Py unit :=
  fun w =>
    (Ok tt, {| host := f (host w); globals := globals w; trace := trace w |}).

Definition global (name : string) : Py PyGlobal :=
  fun w =>
    match globals w !! name with
    | Some g => (Ok g, w)
    | None => (Raised (NameError name), w)
    end.

End Script.

Declare Scope py_scope.
Delimit Scope py_scope with py.
Notation "x <- c ;; k" := (bind c (fun x => k))
  (at level 100, c at next level, right associativity) : py_scope.
Notation "c ;; k" := (bind c (fun _ => k))
  (at level 100, right associativity) : py_scope.

Section Program.
Context `{Host}.
Local Open Scope py_scope.

Fixpoint for_ {A} (l : list A) (body : A -> Py unit) : Py unit :=
  match l with
  | [] => ret tt
  | x :: l' => body x ;; for_ l' body
  end.

(** [range(n)] *)
Definition range (n : Z) : list Z := map Z.of_nat (seq 0 (Z.to_nat n)).

Definition print (line : string) : Py unit := emit (EvPrint line).

Definition format_ (tpl : string) (args : list string)
    (kw : list (string * string)) : Py string :=
  match PyStr.format tpl args kw with
  | Some s => ret s
  | None => raise FormatError
  end.

(** Truth value of what [SBValue.GetValue] returns ([None] or a [str]). *)
Definition truthy (v : option string) : bool :=
  match v with
  | Some (String _ _) => true
  | _ => false
  end.

(** How [str.format] renders such a value. *)
Definition to_str (v : option string) : string :=
  match v with
  | Some s => s
  | None => "None"
  end.

(** *** Host methods that leave a mark in the trace *)

Definition frame_at (thread : SBThread) (i : Z) : Py SBFrame :=
  emit (EvFrame thread (Z.to_N i)) ;;
  ask (fun h => GetFrameAtIndex h thread (Z.to_N i)).

Definition evaluate (fr : SBFrame) (expr : string) : Py SBValue :=
  emit (EvEval fr expr) ;;
  ask (fun h => EvaluateExpression h fr expr).

(** *** [PyObjectPtr] *)

Definition is_null (self : PyObjectPtr) : Py bool :=
  v <- ask (fun h => GetValueAsUnsigned h (_SBValue self)) ;;
  ret (0 =? Z.of_N v).

Definition field (self : PyObjectPtr) (name : string) : Py SBValue :=
  null <- is_null self ;;
  if null : bool then raise (NullPyObjectPtr self)
  else ask (fun h => GetChildMemberWithName h (_SBValue self) name).

(** *** Module-level functions *)

Definition Evaluate_PyObject_AsUTF8 (fr : SBFrame) (obj : string) : Py SBValue :=
  evaluate fr ("PyUnicode_AsUTF8(" +:+ obj +:+ ")").

Definition Evaluate_LineNo (fr : SBFrame) (obj : string) : Py SBValue :=
  evaluate fr ("PyFrame_GetLineNumber(" +:+ obj +:+ ")").

Definition is_evalframeex (frame : SBFrame) : Py bool :=
  name <- ask (fun h => GetFunctionName h frame) ;;
  ret match name with
      | Some s => String.eqb s "PyEval_EvalFrameEx"
      | None => false
      end.

(** The body of the [for] loop of [py3bt]. *)
Definition py3bt_frame (thread : SBThread) (i : Z) : Py unit :=
  fr <- frame_at thread i ;;
  interp <- is_evalframeex fr ;;
  if interp : bool then
    f <- ask (fun h => GetValueForVariablePath h fr "f") ;;
    let f := {| _SBValue := f |} in
    f_code <- field f "f_code" ;;
    let f_code := {| _SBValue := f_code |} in
    co_filename <- field f_code "co_filename" ;;
    filename <- ask (fun h => GetValue h co_filename) ;;
    co_name <- field f_code "co_name" ;;
    name <- ask (fun h => GetValue h co_name) ;;
    line <- Evaluate_LineNo fr "f" ;;
    lineno <- ask (fun h => GetValue h line) ;;
    id <- ask (fun h => GetFrameID h fr) ;;
    text <- format_ "frame #{}: {} - {}:{}"
              [ pretty id;
                if truthy filename then to_str filename else ".";
                if truthy name then to_str name else ".";
                if truthy lineno then to_str lineno else "." ] [] ;;
    print text
  else ret tt.

Definition py3bt (debugger : option SBDebugger) (command result dict : PyArg)
    (thread : PyArg) : Py unit :=
  let debugger :=
    match debugger with
    | None => lldb_debugger
    | Some d => d
    end in
  target <- ask (fun h => GetSelectedTarget h debugger) ;;
  thread <- match thread with
            | PyThread t => ret t
            | _ =>
                process <- ask (fun h => GetProcess h target) ;;
                ask (fun h => GetSelectedThread h process)
            end ;;
  num_frames <- ask (fun h => GetNumFrames h thread) ;;
  for_ (range (Z.of_N num_frames - 1)) (py3bt_frame thread).

Definition CMDS : Py (list (string * string)) :=
  g <- global "CMDS" ;;
  match g with
  | GCommands cmds => ret cmds
  | _ => raise TypeError
  end.

Definition __lldb_init_module (debugger : SBDebugger) (dict : PyArg) : Py unit :=
  cmds <- CMDS ;;
  for_ cmds (fun cmd =>
    text <- format_ "command script add -f lldb_utils.{func} {cmd}" []
              [("cmd", fst cmd); ("func", snd cmd)] ;;
    tell (fun h => HandleCommand h debugger text)).

End Program.

(** ** Observations on a run *)

Section Observations.
Context `{Host}.

Definition add_events (w : World) (evs : list Event) : World :=
  {| host := host w; globals := globals w; trace := trace w ++ evs |}.

(** What a computation appends to the trace when started in [w]. *)
Definition effects {A} (m : Py A) (w : World) : list Event :=
  drop (length (trace w)) (trace (snd (m w))).

(** The lines written to standard output, in order. *)
Fixpoint printed (tr : list Event) : list string :=
  match tr with
  | [] => []
  | EvPrint line :: tr' => line :: printed tr'
  | _ :: tr' => printed tr'
  end.

(** The frame indices fetched from the thread, in order. *)
Fixpoint visited (tr : list Event) : list N :=
  match tr with
  | [] => []
  | EvFrame _ i :: tr' => i :: visited tr'
  | _ :: tr' => visited tr'
  end.

(** The events up to the next frame fetch. *)
Fixpoint until_frame (tr : list Event) : list Event :=
  match tr with
  | [] => []
  | EvFrame _ _ :: _ => []
  | e :: tr' => e :: until_frame tr'
  end.

(** The events that belong to frame [i]: those between the fetch of frame
    [i] and the next fetch. *)
Fixpoint events_of (i : N) (tr : list Event) : list Event :=
  match tr with
  | [] => []
  | EvFrame _ j :: tr' => if N.eqb i j then until_frame tr' else events_of i tr'
  | _ :: tr' => events_of i tr'
  end.

(** Each printed line paired with the index of the frame fetched last
    before it. *)
Fixpoint tagged (cur : option N) (tr : list Event) : list (N * string) :=
  match tr with
  | [] => []
  | EvFrame _ j :: tr' => tagged (Some j) tr'
  | EvPrint line :: tr' =>
      match cur with
      | Some j => (j, line) :: tagged cur tr'
      | None => tagged cur tr'
      end
  | EvEval _ _ :: tr' => tagged cur tr'
  end.

(** Empty, or starting with a frame fetch. *)
Definition headed (tr : list Event) : Prop :=
  tr = [] \/ exists t' i tr', tr = EvFrame t' i :: tr'.

Variable h : HostState.

(** The thread a call of [py3bt] works on. *)
Definition target_thread (debugger : option SBDebugger) (thread : PyArg)
    : SBThread :=
  match thread with
  | PyThread t => t
  | _ =>
      let d := match debugger with None => lldb_debugger | Some d => d end in
      GetSelectedThread h (GetProcess h (GetSelectedTarget h d))
  end.

(** What the host reports about the interpreter frame held by a native
    frame. *)
Definition frame_f (fr : SBFrame) : SBValue :=
  GetValueForVariablePath h fr "f".
Definition frame_code (fr : SBFrame) : SBValue :=
  GetChildMemberWithName h (frame_f fr) "f_code".
Definition frame_filename (fr : SBFrame) : option string :=
  GetValue h (GetChildMemberWithName h (frame_code fr) "co_filename").
Definition frame_name (fr : SBFrame) : option string :=
  GetValue h (GetChildMemberWithName h (frame_code fr) "co_name").
Definition frame_lineno (fr : SBFrame) : option string :=
  GetValue h (EvaluateExpression h fr "PyFrame_GetLineNumber(f)").

Definition interpreted (fr : SBFrame) : Prop :=
  GetFunctionName h fr = Some "PyEval_EvalFrameEx".

(** Neither [f] nor [f->f_code] is a null pointer. *)
Definition readable (fr : SBFrame) : Prop :=
  GetValueAsUnsigned h (frame_f fr) <> 0%N /\
  GetValueAsUnsigned h (frame_code fr) <> 0%N.

(** A value reported by the host is missing when it is [None] or empty. *)
Definition missing (v : option string) : Prop := v = None \/ v = Some "".

(** One position of an output line: the value, or a dot when missing. *)
Definition shown (v : option string) : string :=
  match v with
  | None => "."
  | Some EmptyString => "."
  | Some s => s
  end.

(** The line for an interpreted frame:
    [frame #<id>: <file> - <name>:<line>]. *)
Definition frame_line (fr : SBFrame) : string :=
  "frame #" +:+ pretty (GetFrameID h fr) +:+ ": " +:+ shown (frame_filename fr)
  +:+ " - " +:+ shown (frame_name fr) +:+ ":" +:+ shown (frame_lineno fr).

(** Summary of one iteration of the loop of [py3bt] on frame [fr]: how it
    ends and what it adds to the trace after the frame fetch. *)
Definition frame_outcome (fr : SBFrame) : Result unit * list Event :=
  match GetFunctionName h fr with
  | Some s =>
      if String.eqb s "PyEval_EvalFrameEx" then
        if N.eqb (GetValueAsUnsigned h (frame_f fr)) 0 then
          (Raised (NullPyObjectPtr {| _SBValue := frame_f fr |}), [])
        else if N.eqb (GetValueAsUnsigned h (frame_code fr)) 0 then
          (Raised (NullPyObjectPtr {| _SBValue := frame_code fr |}), [])
        else
          (Ok tt, [EvEval fr "PyFrame_GetLineNumber(f)"; EvPrint (frame_line fr)])
      else (Ok tt, [])
  | None => (Ok tt, [])
  end.

(** Summary of the loop over the frame indices [l] of thread [t]. *)
Fixpoint loop_outcome (t : SBThread) (l : list N) : Result unit * list Event :=
  match l with
  | [] => (Ok tt, [])
  | i :: l' =>
      let fr := GetFrameAtIndex h t i in
      match frame_outcome fr with
      | (Ok _, evs) =>
          let (r, evs') := loop_outcome t l' in
          (r, EvFrame t i :: evs ++ evs')
      | (Raised e, evs) => (Raised e, EvFrame t i :: evs)
      end
  end.

(** The frame indices the loop of [py3bt] ranges over. *)
Definition frame_indices (t : SBThread) : list N :=
  map Z.to_N (range (Z.of_N (GetNumFrames h t) - 1)).

(** Summary of a whole call of [py3bt]. *)
Definition py3bt_outcome (debugger : option SBDebugger) (thread : PyArg)
    : Result unit * list Event :=
  let t := target_thread debugger thread in
  loop_outcome t (frame_indices t).

End Observations.

(** ** The claim of a line for every interpreter frame *)

Section Claims.
Context `{Host}.

(** Every frame of the target thread whose function is
    [PyEval_EvalFrameEx] gets one line, in the format
    [frame #<id>: <file> - <name>:<line>]. *)
Definition every_interpreted_frame_printed (debugger : option SBDebugger)
    (command result dict thread : PyArg) (w : World) : Prop :=
  let h := host w in
  let t := target_thread h debugger thread in
  forall i : N,
    (i < GetNumFrames h t)%N ->
    interpreted h (GetFrameAtIndex h t i) ->
    printed (events_of i (effects (py3bt debugger command result dict thread) w))
    = [frame_line h (GetFrameAtIndex h t i)].

(** Two host states give the same answers about thread [t]: the same frame
    list, the same variable values and the same results of evaluated
    expressions. *)
Definition same_answers (h1 h2 : HostState) (t : SBThread) : Prop :=
  GetNumFrames h1 t = GetNumFrames h2 t /\
  (forall i, GetFrameAtIndex h1 t i = GetFrameAtIndex h2 t i) /\
  (forall fr, GetFunctionName h1 fr = GetFunctionName h2 fr) /\
  (forall fr, GetFrameID h1 fr = GetFrameID h2 fr) /\
  (forall fr path,
     GetValueForVariablePath h1 fr path = GetValueForVariablePath h2 fr path) /\
  (forall v name,
     GetChildMemberWithName h1 v name = GetChildMemberWithName h2 v name) /\
  (forall v, GetValueAsUnsigned h1 v = GetValueAsUnsigned h2 v) /\
  (forall v, GetValue h1 v = GetValue h2 v) /\
  (forall fr expr, EvaluateExpression h1 fr expr = EvaluateExpression h2 fr expr).

End Claims.

(** ** The rest of [PyObjectPtr] and further observations *)

Section Further.
Context `{Host}.
Local Open Scope py_scope.

(** What calling a binding of the name [PyTypeObjectPtr] would do with the
    [ob_type] field.  The module binds no such name, so this is left open. *)
Variable construct : PyGlobal -> SBValue -> Py PyObjectPtr.

(** [PyObjectPtr.type]: the callee [PyTypeObjectPtr] is looked up first,
    then the argument [self.field('ob_type')] is evaluated, then the call is
    made. *)
Definition type (self : PyObjectPtr) : Py PyObjectPtr :=
  cls <- global "PyTypeObjectPtr" ;;
  ob_type <- field self "ob_type" ;;
  construct cls ob_type.

(** The access pattern of [py3bt]: [PyObjectPtr(p.field(a)).field(b)]. *)
Definition field_of_field (p : PyObjectPtr) (a b : string) : Py SBValue :=
  v <- field p a ;;
  field {| _SBValue := v |} b.

(** The expressions evaluated in the inferior, in order, each with its
    frame. *)
Fixpoint evaluated (tr : list Event) : list (SBFrame * string) :=
  match tr with
  | [] => []
  | EvEval fr expr :: tr' => (fr, expr) :: evaluated tr'
  | _ :: tr' => evaluated tr'
  end.

(** The test of [is_evalframeex], as a function of the host state. *)
Definition is_interp (h : HostState) (fr : SBFrame) : bool :=
  match GetFunctionName h fr with
  | Some s => String.eqb s "PyEval_EvalFrameEx"
  | None => false
  end.

(** The lines of the interpreter frames among the frames of thread [t] with
    indices [l], in the order of [l]. *)
Fixpoint backtrace (h : HostState) (t : SBThread) (l : list N) : list string :=
  match l with
  | [] => []
  | i :: l' =>
      if is_interp h (GetFrameAtIndex h t i)
      then frame_line h (GetFrameAtIndex h t i) :: backtrace h t l'
      else backtrace h t l'
  end.

(** The command [__lldb_init_module] builds for one entry of [CMDS]. *)
Definition script_add (cmd : string * string) : string :=
  "command script add -f lldb_utils." +:+ snd cmd +:+ " " +:+ fst cmd.

End Further.

(** ** A small concrete host

    Values are trees, a frame carries its variables and the results of the
    expressions it can evaluate, a thread is the list of its frames, and the
    host state is the selected thread together with the commands handled so
    far. *)

Module Toy.

#[local] Set Warnings "-register-all".
Inductive value :=
| Val (unsigned : N) (text : option string) (members : list (string * value)).

Definition invalid : value := Val 0 None [].

Fixpoint assoc {A} (d : A) (k : string) (l : list (string * A)) : A :=
  match l with
  | [] => d
  | (k', v) :: l' => if String.eqb k' k then v else assoc d k l'
  end.

Record frame := {
  fn_name : option string;
  frame_id : N;
  variables : list (string * value);
  results : list (string * value)
}.

Definition no_frame : frame :=
  {| fn_name := None; frame_id := 0; variables := []; results := [] |}.

Record state := {
  selected : list frame;
  commands : list string
}.

#[export] Instance toy_host : Host := {|
  HostState := state;
  SBDebugger := unit;
  SBTarget := unit;
  SBProcess := unit;
  SBThread := list frame;
  SBFrame := frame;
  SBValue := value;
  lldb_debugger := tt;
  GetSelectedTarget := fun _ _ => tt;
  GetProcess := fun _ _ => tt;
  GetSelectedThread := fun st _ => selected st;
  GetNumFrames := fun _ t => N.of_nat (length t);
  GetFrameAtIndex := fun _ t i => nth (N.to_nat i) t no_frame;
  GetFunctionName := fun _ fr => fn_name fr;
  GetFrameID := fun _ fr => frame_id fr;
  GetValueForVariablePath := fun _ fr path => assoc invalid path (variables fr);
  EvaluateExpression := fun _ fr expr => assoc invalid expr (results fr);
  GetChildMemberWithName :=
    fun _ v name => match v with Val _ _ ms => assoc invalid name ms end;
  GetValueAsUnsigned := fun _ v => match v with Val u _ _ => u end;
  GetValue := fun _ v => match v with Val _ t _ => t end;
  HandleCommand :=
    fun st _ cmd => {| selected := selected st; commands := commands st ++ [cmd] |}
|}.

(** An interpreter frame object [f] whose code object names [file] and
    [name]. *)
Definition pyframe (file name : option string) : value :=
  Val 4096 (Some "0x1000")
    [("f_code", Val 8192 (Some "0x2000")
        [("co_filename", Val 12288 file []); ("co_name", Val 16384 name [])])].

Definition eval_frame (id : N) (f : value) (lineno : option string) : frame :=
  {| fn_name := Some "PyEval_EvalFrameEx"; frame_id := id;
     variables := [("f", f)];
     results := [("PyFrame_GetLineNumber(f)", Val 0 lineno [])] |}.

Definition native_frame (id : N) (name : string) : frame :=
  {| fn_name := Some name; frame_id := id; variables := []; results := [] |}.

(** main -> Py_Main -> PyEval_EvalFrameEx (module) -> call_function ->
    PyEval_EvalFrameEx (function [work]), innermost first. *)
Definition stack : list frame :=
  [ eval_frame 0 (pyframe (Some "app.py") (Some "work")) (Some "12");
    native_frame 1 "call_function";
    eval_frame 2 (pyframe (Some "app.py") None) (Some "30");
    native_frame 3 "Py_Main";
    native_frame 4 "main" ].

(** The same stack with a null [f] in the innermost frame. *)
Definition broken_stack : list frame :=
  [ eval_frame 0 invalid (Some "12");
    native_frame 1 "Py_Main";
    native_frame 2 "main" ].

(** Two interpreter frames and nothing else: the outermost frame is one of
    them. *)
Definition bare_stack : list frame :=
  [ eval_frame 0 (pyframe (Some "app.py") (Some "work")) (Some "12");
    eval_frame 1 (pyframe (Some "app.py") (Some "main")) (Some "30") ].

(** Another state of the host showing the same thread, and a world around
    it with earlier output and an empty namespace. *)
Definition later_world (t : list frame) : World :=
  {| host := {| selected := t; commands := ["breakpoint list"] |};
     globals := ∅;
     trace := [@EvPrint toy_host "earlier output"] |}.

(** The [thread] argument naming thread [t]. *)
Definition on_thread (t : list frame) : PyArg := @PyThread toy_host t.

Definition ptr (v : value) : PyObjectPtr := @Build_PyObjectPtr toy_host v.

Definition world (t : list frame) : World :=
  {| host := {| selected := t; commands := [] |};
     globals := module_namespace;
     trace := [] |}.

(** A world with namespace [g], no thread selected and nothing handled
    yet. *)
Definition world_with (g : gmap string PyGlobal) : World :=
  {| host := {| selected := []; commands := [] |};
     globals := g;
     trace := [] |}.

End Toy.

(** ** Facts about Python strings *)

Module PyStrFacts.
Import PyStr.

Lemma len_nonneg s : 0 <= len s.
Proof. unfold len. lia. Qed.

Lemma len_cons a s : len (String a s) = len s + 1.
Proof. unfold len. cbn [String.length]. lia. Qed.

(** [+:+] is never unfolded by [simpl]; these two equations do it. *)
Lemma app_empty t : "" +:+ t = t.
Proof. reflexivity. Qed.

Lemma app_cons a s t : String a s +:+ t = String a (s +:+ t).
Proof. reflexivity. Qed.

Lemma app_empty_r s : s +:+ "" = s.
Proof.
  induction s as [|a s IH]; [reflexivity|].
  rewrite app_cons, IH. reflexivity.
Qed.

Lemma app_assoc s t u : (s +:+ t) +:+ u = s +:+ t +:+ u.
Proof.
  induction s as [|a s IH]; [reflexivity|].
  rewrite !app_cons, IH. reflexivity.
Qed.

Lemma len_app s t : len (s +:+ t) = len s + len t.
Proof.
  induction s as [|a s IH].
  - rewrite app_empty. unfold len. cbn [String.length]. lia.
  - rewrite app_cons, !len_cons, IH. lia.
Qed.

Lemma find_absent s c : occurs c s = false -> find s c = -1.
Proof.
  induction s as [|a s IH]; cbn; [reflexivity|].
  intros [Ha Hs]%orb_false_iff. rewrite Ha, (IH Hs). reflexivity.
Qed.

Lemma rfind_absent s c : occurs c s = false -> rfind s c = -1.
Proof.
  induction s as [|a s IH]; cbn; [reflexivity|].
  intros [Ha Hs]%orb_false_iff. rewrite Ha, (IH Hs). reflexivity.
Qed.

(** The first occurrence is found right after a prefix free of [c]. *)
Lemma find_first a c rest :
  occurs c a = false -> find (a +:+ String c rest) c = len a.
Proof.
  induction a as [|x a IH]; rewrite ?app_cons, ?app_empty; cbn [find occurs].
  - intros _. rewrite Ascii.eqb_refl. reflexivity.
  - intros [Hx Ha]%orb_false_iff. rewrite Hx, (IH Ha), len_cons.
    pose proof (len_nonneg a).
    destruct (len a <? 0) eqn:E; [apply Z.ltb_lt in E; lia | reflexivity].
Qed.

(** The last occurrence is the one followed by a suffix free of [c]. *)
Lemma rfind_last x c b :
  occurs c b = false -> rfind (x +:+ String c b) c = len x.
Proof.
  intros Hb. induction x as [|y x IH]; rewrite ?app_cons, ?app_empty; cbn [rfind].
  - rewrite (rfind_absent _ _ Hb). cbn. rewrite Ascii.eqb_refl. reflexivity.
  - rewrite IH, len_cons. pose proof (len_nonneg x).
    destruct (0 <=? len x) eqn:E; [reflexivity | apply Z.leb_gt in E; lia].
Qed.

Lemma substring_none n s : String.substring n 0 s = EmptyString.
Proof.
  revert s. induction n as [|n IH]; intros [|a s]; cbn; auto.
Qed.

Lemma substring_prefix m t : String.substring 0 (String.length m) (m +:+ t) = m.
Proof.
  induction m as [|a m IH].
  - rewrite app_empty. destruct t; reflexivity.
  - rewrite app_cons. cbn [String.length String.substring]. rewrite IH. reflexivity.
Qed.

Lemma substring_middle a m b :
  String.substring (String.length a) (String.length m) (a +:+ m +:+ b) = m.
Proof.
  induction a as [|x a IH].
  - rewrite app_empty. apply substring_prefix.
  - rewrite app_cons. cbn [String.length String.substring]. exact IH.
Qed.

Lemma substring_drop_last s :
  String.substring 0 (String.length s - 1) s = drop_last s.
Proof.
  destruct s as [|a s]; [reflexivity|].
  cbn [String.length]. replace (S (String.length s) - 1)%nat with (String.length s) by lia.
  revert a. induction s as [|b s IH]; intros a; [reflexivity|].
  change (drop_last (String a (String b s))) with (String a (drop_last (String b s))).
  rewrite <- IH. reflexivity.
Qed.

Lemma clamp_inside n i : 0 <= i <= n -> clamp n i = i.
Proof.
  intros Hi. unfold clamp. cbv zeta.
  assert (E1 : (i <? 0) = false) by (apply Z.ltb_ge; lia).
  assert (E2 : (n <? i) = false) by (apply Z.ltb_ge; lia).
  rewrite !E1, E2. reflexivity.
Qed.

Lemma clamp_minus_one n : 0 <= n -> clamp n (-1) = Z.max 0 (n - 1).
Proof.
  intros Hn. unfold clamp. cbv zeta. change (-1 <? 0) with true. cbv iota.
  destruct (-1 + n <? 0) eqn:E1.
  - apply Z.ltb_lt in E1. lia.
  - apply Z.ltb_ge in E1.
    assert (E2 : (n <? -1 + n) = false) by (apply Z.ltb_ge; lia).
    rewrite E2. lia.
Qed.

(** [s[lo:hi]] for bounds inside the string. *)
Lemma slice_inside s lo hi :
  0 <= lo <= len s -> 0 <= hi <= len s ->
  slice s lo hi = String.substring (Z.to_nat lo) (Z.to_nat (hi - lo)) s.
Proof.
  intros Hlo Hhi. unfold slice. cbv zeta.
  rewrite !clamp_inside by assumption. reflexivity.
Qed.

Lemma slice_all_but_last s : slice s 0 (-1) = drop_last s.
Proof.
  unfold slice. cbv zeta. pose proof (len_nonneg s) as Hn.
  rewrite (clamp_inside (len s) 0), clamp_minus_one by lia.
  rewrite <- substring_drop_last. unfold len. f_equal. lia.
Qed.

End PyStrFacts.

(** ** [gist_extr] *)

Section GistExtr.
Import PyStr PyStrFacts.

(** C9. [gist_extr s] is the part of [s] strictly between its first and its
    last double quote: with two or more quotes, whatever stands between the
    first and the last one; with a single quote (which is both), nothing; and
    with no quote at all, [s[0:-1]], that is [s] without its last
    character. *)
Theorem gist_extr_between (s : string) :
  (forall a m b,
      s = a +:+ String PyStr.dquote (m +:+ String PyStr.dquote b) ->
      PyStr.occurs PyStr.dquote a = false ->
      PyStr.occurs PyStr.dquote b = false ->
      gist_extr s = m) /\
  (forall a b,
      s = a +:+ String PyStr.dquote b ->
      PyStr.occurs PyStr.dquote a = false ->
      PyStr.occurs PyStr.dquote b = false ->
      gist_extr s = EmptyString) /\
  (PyStr.occurs PyStr.dquote s = false ->
      gist_extr s = PyStr.slice s 0 (-1) /\ gist_extr s = PyStr.drop_last s).
Proof.
  split; [|split].
  - intros a m b -> Ha Hb. unfold gist_extr.
    rewrite (find_first a dquote _ Ha).
    change (a +:+ String dquote (m +:+ String dquote b))
      with (a +:+ (String dquote m) +:+ String dquote b).
    rewrite <- (app_assoc a (String dquote m)) at 2.
    rewrite (rfind_last _ dquote b Hb).
    rewrite len_app, len_cons.
    pose proof (len_nonneg a). pose proof (len_nonneg m). pose proof (len_nonneg b).
    rewrite slice_inside.
    + replace (Z.to_nat (len a + (len m + 1) - (len a + 1)))
        with (String.length m) by (unfold len; lia).
      replace (Z.to_nat (len a + 1)) with (String.length (a +:+ String dquote EmptyString)).
      * change (String dquote m +:+ String dquote b)
          with (String dquote EmptyString +:+ m +:+ String dquote b).
        rewrite <- (app_assoc a). apply substring_middle.
      * pose proof (len_app a (String dquote EmptyString)) as L.
        unfold len in *. cbn [String.length] in L. lia.
    + repeat rewrite ?len_app, ?len_cons. lia.
    + repeat rewrite ?len_app, ?len_cons. lia.
  - intros a b -> Ha Hb. unfold gist_extr.
    rewrite (find_first a dquote _ Ha), (rfind_last a dquote b Hb).
    pose proof (len_nonneg a). pose proof (len_nonneg b).
    rewrite slice_inside by (rewrite len_app, len_cons; lia).
    replace (Z.to_nat (len a - (len a + 1))) with 0%nat by lia.
    apply substring_none.
  - intros Hs. unfold gist_extr.
    rewrite (find_absent _ _ Hs), (rfind_absent _ _ Hs).
    change (-1 + 1) with 0. split; [reflexivity | apply slice_all_but_last].
Qed.

(** On [say "hi" to "bob"] the result is [hi" to "bob]; on [hello], [hell]. *)
Lemma gist_extr_between_witness :
  gist_extr ("say " +:+ String PyStr.dquote ("hi" +:+ String PyStr.dquote
               (" to " +:+ String PyStr.dquote ("bob" +:+ String PyStr.dquote ""))))
    = "hi" +:+ String PyStr.dquote (" to " +:+ String PyStr.dquote "bob")
  /\ gist_extr ("x = " +:+ String PyStr.dquote "y") = ""
  /\ gist_extr "hello" = "hell".
Proof.
  split; [|split].
  - apply (proj1 (gist_extr_between _) "say "
             ("hi" +:+ String PyStr.dquote (" to " +:+ String PyStr.dquote "bob")) "");
      reflexivity.
  - apply (proj1 (proj2 (gist_extr_between _)) "x = " "y"); reflexivity.
  - apply (proj2 (proj2 (gist_extr_between "hello"))). reflexivity.
Defined.

End GistExtr.

(** ** Running the script *)

Section Runs.
Context `{Host}.

Lemma add_events_nil w : add_events w [] = w.
Proof. destruct w. unfold add_events. cbn. rewrite app_nil_r. reflexivity. Qed.

Lemma effects_add {A} (m : Py A) w r evs :
  m w = (r, add_events w evs) -> effects m w = evs.
Proof.
  intros E. unfold effects. rewrite E. cbn. apply drop_app_length.
Qed.

Lemma is_null_run p w :
  is_null p w = (Ok (N.eqb (GetValueAsUnsigned (host w) (_SBValue p)) 0), w).
Proof.
  unfold is_null, bind, ask, ret. do 2 f_equal.
  destruct (GetValueAsUnsigned (host w) (_SBValue p)); reflexivity.
Qed.

Lemma field_run p name w :
  field p name w =
  if N.eqb (GetValueAsUnsigned (host w) (_SBValue p)) 0
  then (Raised (NullPyObjectPtr p), w)
  else (Ok (GetChildMemberWithName (host w) (_SBValue p) name), w).
Proof.
  unfold field, bind. rewrite is_null_run.
  destruct (N.eqb _ 0); reflexivity.
Qed.

Lemma evaluate_run fr expr w :
  evaluate fr expr w =
  (Ok (EvaluateExpression (host w) fr expr), add_events w [EvEval fr expr]).
Proof. reflexivity. Qed.

Lemma shown_or_dot v : (if truthy v then to_str v else ".") = shown v.
Proof. destruct v as [[|a s]|]; reflexivity. Qed.

Lemma format_frame a b c d :
  PyStr.format "frame #{}: {} - {}:{}" [a; b; c; d] [] =
  Some ("frame #" +:+ a +:+ ": " +:+ b +:+ " - " +:+ c +:+ ":" +:+ d).
Proof.
  rewrite <- (PyStrFacts.app_empty_r d) at 2. reflexivity.
Qed.

Lemma bind_ok {A B} (m : Py A) (k : A -> Py B) w a w' :
  m w = (Ok a, w') -> bind m k w = k a w'.
Proof. intros E. unfold bind. rewrite E. reflexivity. Qed.

Lemma bind_raised {A B} (m : Py A) (k : A -> Py B) w e w' :
  m w = (Raised e, w') -> bind m k w = (Raised e, w').
Proof. intros E. unfold bind. rewrite E. reflexivity. Qed.

Lemma bind_ask {A B} (f : HostState -> A) (k : A -> Py B) w :
  bind (ask f) k w = k (f (host w)) w.
Proof. reflexivity. Qed.

Lemma frame_at_run t i w :
  frame_at t i w =
  (Ok (GetFrameAtIndex (host w) t (Z.to_N i)),
   add_events w [EvFrame t (Z.to_N i)]).
Proof. reflexivity. Qed.

Lemma is_evalframeex_run fr w :
  is_evalframeex fr w =
  (Ok match GetFunctionName (host w) fr with
      | Some s => String.eqb s "PyEval_EvalFrameEx"
      | None => false
      end, w).
Proof. reflexivity. Qed.

Lemma field_ok p name w :
  N.eqb (GetValueAsUnsigned (host w) (_SBValue p)) 0 = false ->
  field p name w = (Ok (GetChildMemberWithName (host w) (_SBValue p) name), w).
Proof. intros E. rewrite field_run, E. reflexivity. Qed.

Lemma field_null p name w :
  N.eqb (GetValueAsUnsigned (host w) (_SBValue p)) 0 = true ->
  field p name w = (Raised (NullPyObjectPtr p), w).
Proof. intros E. rewrite field_run, E. reflexivity. Qed.

(** One iteration of the loop does what [frame_outcome] says. *)
Lemma py3bt_frame_run t i w :
  py3bt_frame t i w =
  let fr := GetFrameAtIndex (host w) t (Z.to_N i) in
  (fst (frame_outcome (host w) fr),
   add_events w (EvFrame t (Z.to_N i) :: snd (frame_outcome (host w) fr))).
Proof.
  cbv zeta. unfold py3bt_frame, frame_outcome.
  rewrite (bind_ok _ _ _ _ _ (frame_at_run t i w)).
  set (fr := GetFrameAtIndex (host w) t (Z.to_N i)).
  set (w1 := add_events w [EvFrame t (Z.to_N i)]).
  assert (Hh : host w1 = host w) by reflexivity.
  rewrite (bind_ok _ _ _ _ _ (is_evalframeex_run fr w1)), Hh.
  destruct (GetFunctionName (host w) fr) as [s|]; [|reflexivity].
  destruct (String.eqb s "PyEval_EvalFrameEx"); [|reflexivity].
  rewrite bind_ask, Hh. fold (frame_f (host w) fr).
  destruct (N.eqb (GetValueAsUnsigned (host w) (frame_f (host w) fr)) 0) eqn:Ef.
  { rewrite (bind_raised _ _ _ _ _
               (field_null {| _SBValue := frame_f (host w) fr |} _ w1 Ef)).
    reflexivity. }
  rewrite (bind_ok _ _ _ _ _
             (field_ok {| _SBValue := frame_f (host w) fr |} _ w1 Ef)), Hh.
  cbn [_SBValue].
  fold (frame_code (host w) fr).
  destruct (N.eqb (GetValueAsUnsigned (host w) (frame_code (host w) fr)) 0) eqn:Ec.
  { rewrite (bind_raised _ _ _ _ _
               (field_null {| _SBValue := frame_code (host w) fr |} _ w1 Ec)).
    reflexivity. }
  rewrite (bind_ok _ _ _ _ _
             (field_ok {| _SBValue := frame_code (host w) fr |} _ w1 Ec)),
    bind_ask, Hh.
  rewrite (bind_ok _ _ _ _ _
             (field_ok {| _SBValue := frame_code (host w) fr |} _ w1 Ec)),
    bind_ask, Hh.
  cbn [_SBValue]. unfold Evaluate_LineNo.
  rewrite (bind_ok _ _ _ _ _ (evaluate_run _ _ w1)), !bind_ask.
  cbn [host add_events]. rewrite !shown_or_dot.
  unfold format_. rewrite format_frame.
  rewrite (bind_ok _ _ _ _ _ (eq_refl : ret _ _ = (Ok _, _))).
  unfold print, emit, w1, add_events. cbn [host globals trace fst snd].
  rewrite <- !app_assoc. reflexivity.
Qed.

Lemma for_run t (l : list Z) w :
  for_ l (py3bt_frame t) w =
  (fst (loop_outcome (host w) t (map Z.to_N l)),
   add_events w (snd (loop_outcome (host w) t (map Z.to_N l)))).
Proof.
  revert w. induction l as [|i l IH]; intros w.
  - cbn. rewrite add_events_nil. reflexivity.
  - cbn [for_ map loop_outcome].
    pose proof (py3bt_frame_run t i w) as E. cbv zeta in E.
    destruct (frame_outcome (host w) (GetFrameAtIndex (host w) t (Z.to_N i)))
      as [[[]|e] evs]; cbn [fst snd] in E.
    + rewrite (bind_ok _ _ _ _ _ E), IH. cbn [host add_events].
      destruct (loop_outcome (host w) t (map Z.to_N l)) as [r evs'].
      cbn [fst snd]. f_equal.
      unfold add_events. cbn [host globals trace].
      rewrite <- !app_assoc. reflexivity.
    + rewrite (bind_raised _ _ _ _ _ E). reflexivity.
Qed.

(** A call of [py3bt] does what [py3bt_outcome] says, and touches nothing but
    the trace. *)
Lemma py3bt_run debugger command result dict thread w :
  py3bt debugger command result dict thread w =
  (fst (py3bt_outcome (host w) debugger thread),
   add_events w (snd (py3bt_outcome (host w) debugger thread))).
Proof.
  unfold py3bt, py3bt_outcome, frame_indices. cbv zeta.
  rewrite bind_ask.
  destruct thread as [|s|t]; cbn [target_thread].
  - rewrite (bind_ok _ _ _ _ _ (eq_refl :
      bind (ask _) (fun p => ask _) w = (Ok _, w))).
    rewrite bind_ask. apply for_run.
  - rewrite (bind_ok _ _ _ _ _ (eq_refl :
      bind (ask _) (fun p => ask _) w = (Ok _, w))).
    rewrite bind_ask. apply for_run.
  - rewrite (bind_ok _ _ _ _ _ (eq_refl : ret t w = (Ok t, w))).
    rewrite bind_ask. apply for_run.
Qed.

Lemma py3bt_effects debugger command result dict thread w :
  effects (py3bt debugger command result dict thread) w =
  snd (py3bt_outcome (host w) debugger thread).
Proof. eapply effects_add, py3bt_run. Qed.

Lemma frame_indices_seq h t :
  frame_indices h t = map N.of_nat (seq 0 (N.to_nat (GetNumFrames h t) - 1)).
Proof.
  unfold frame_indices, range. rewrite map_map.
  replace (Z.to_nat (Z.of_N (GetNumFrames h t) - 1))
    with (N.to_nat (GetNumFrames h t) - 1)%nat by lia.
  apply map_ext. intros n. lia.
Qed.

End Runs.

(** ** The shape of the trace of a loop *)

Section Traces.
Context `{Host}.
Variable h : HostState.
Variable t : SBThread.

Lemma interpreted_eqb fr :
  interpreted h fr <->
  exists s, GetFunctionName h fr = Some s /\ String.eqb s "PyEval_EvalFrameEx" = true.
Proof.
  unfold interpreted. split.
  - intros E. eexists. split; [exact E | reflexivity].
  - intros (s & E & Hs). apply String.eqb_eq in Hs. congruence.
Qed.

(** The three ways an iteration can go. *)
Lemma frame_outcome_cases fr :
  (~ interpreted h fr /\ frame_outcome h fr = (Ok tt, [])) \/
  (interpreted h fr /\ ~ readable h fr /\
   exists p, frame_outcome h fr = (Raised (NullPyObjectPtr p), [])) \/
  (interpreted h fr /\ readable h fr /\
   frame_outcome h fr =
   (Ok tt, [EvEval fr "PyFrame_GetLineNumber(f)"; EvPrint (frame_line h fr)])).
Proof.
  unfold frame_outcome, readable.
  destruct (GetFunctionName h fr) as [s|] eqn:En.
  - destruct (String.eqb s "PyEval_EvalFrameEx") eqn:Es.
    + assert (Hi : interpreted h fr).
      { apply interpreted_eqb. eauto. }
      destruct (N.eqb (GetValueAsUnsigned h (frame_f h fr)) 0) eqn:Ef.
      { right. left. apply N.eqb_eq in Ef. split; [assumption|].
        split; [tauto | eauto]. }
      destruct (N.eqb (GetValueAsUnsigned h (frame_code h fr)) 0) eqn:Ec.
      { right. left. apply N.eqb_eq in Ec. split; [assumption|].
        split; [tauto | eauto]. }
      right. right. apply N.eqb_neq in Ef, Ec. auto.
    + left. split; [|reflexivity].
      intros (s' & E' & Hs')%interpreted_eqb. congruence.
  - left. split; [|reflexivity]. unfold interpreted. congruence.
Qed.

Lemma loop_outcome_headed l : headed (snd (loop_outcome h t l)).
Proof.
  destruct l as [|i l]; [left; reflexivity|]. right. cbn.
  destruct (frame_outcome h (GetFrameAtIndex h t i)) as [[[]|e] evs].
  - destruct (loop_outcome h t l). cbn. eauto.
  - cbn. eauto.
Qed.

Lemma until_frame_headed tr : headed tr -> until_frame tr = [].
Proof. intros [->|(t' & i & tr' & ->)]; reflexivity. Qed.

Lemma tagged_headed cur tr : headed tr -> tagged cur tr = tagged None tr.
Proof. intros [->|(t' & i & tr' & ->)]; reflexivity. Qed.

(** The loop, unfolded one iteration, in terms of the trace. *)
Lemma loop_outcome_cons i l :
  let fr := GetFrameAtIndex h t i in
  (~ interpreted h fr /\
   loop_outcome h t (i :: l) =
   (fst (loop_outcome h t l), EvFrame t i :: snd (loop_outcome h t l))) \/
  (interpreted h fr /\ ~ readable h fr /\
   exists p, loop_outcome h t (i :: l) =
             (Raised (NullPyObjectPtr p), [EvFrame t i])) \/
  (interpreted h fr /\ readable h fr /\
   loop_outcome h t (i :: l) =
   (fst (loop_outcome h t l),
    EvFrame t i :: EvEval fr "PyFrame_GetLineNumber(f)"
      :: EvPrint (frame_line h fr) :: snd (loop_outcome h t l))).
Proof.
  cbv zeta. cbn [loop_outcome].
  destruct (frame_outcome_cases (GetFrameAtIndex h t i))
    as [[Hn ->]|[(Hi & Hr & p & ->)|(Hi & Hr & ->)]].
  - left. split; [assumption|]. destruct (loop_outcome h t l). reflexivity.
  - right. left. eauto.
  - right. right. do 2 (split; [assumption|]).
    destruct (loop_outcome h t l). reflexivity.
Qed.

(** Nothing is recorded for a frame that is not an interpreter frame. *)
Lemma loop_events_of_native l i :
  ~ interpreted h (GetFrameAtIndex h t i) ->
  events_of i (snd (loop_outcome h t l)) = [].
Proof.
  intros Hn. induction l as [|j l IH]; [reflexivity|].
  pose proof (loop_outcome_headed l) as Hh.
  destruct (loop_outcome_cons j l)
    as [[_ ->]|[(_ & _ & p & ->)|(Hi & _ & ->)]]; cbn [snd events_of].
  - destruct (N.eqb i j); [|exact IH].
    apply until_frame_headed, Hh.
  - destruct (N.eqb i j); reflexivity.
  - destruct (N.eqb i j) eqn:E; [|exact IH].
    apply N.eqb_eq in E. subst j. contradiction.
Qed.

(** Expressions are evaluated in interpreter frames only. *)
Lemma loop_eval_interpreted l fr expr :
  In (EvEval fr expr) (snd (loop_outcome h t l)) -> interpreted h fr.
Proof.
  induction l as [|j l IH]; [intros []|].
  destruct (loop_outcome_cons j l)
    as [[_ ->]|[(_ & _ & p & ->)|(Hi & _ & ->)]]; cbn [snd In].
  - intros [E|Hin]; [discriminate | auto].
  - intros [E|[]]. discriminate.
  - intros [E|[E|[E|Hin]]]; try discriminate; [|auto].
    injection E as <- _. exact Hi.
Qed.

(** An interpreter frame reached without an exception gets its evaluation
    and its line. *)
Lemma loop_events_of_interpreted k : forall s i,
  (s <= i < s + k)%nat ->
  (forall j, (s <= j <= i)%nat ->
     interpreted h (GetFrameAtIndex h t (N.of_nat j)) ->
     readable h (GetFrameAtIndex h t (N.of_nat j))) ->
  interpreted h (GetFrameAtIndex h t (N.of_nat i)) ->
  events_of (N.of_nat i) (snd (loop_outcome h t (map N.of_nat (seq s k)))) =
  [ EvEval (GetFrameAtIndex h t (N.of_nat i)) "PyFrame_GetLineNumber(f)";
    EvPrint (frame_line h (GetFrameAtIndex h t (N.of_nat i))) ].
Proof.
  induction k as [|k IH]; intros s i Hi Hok Hint; [lia|].
  cbn [seq map].
  pose proof (loop_outcome_headed (map N.of_nat (seq (S s) k))) as Hh.
  destruct (loop_outcome_cons (N.of_nat s) (map N.of_nat (seq (S s) k)))
    as [[Hn ->]|[(Hi' & Hr & _)|(Hi' & _ & ->)]]; cbn [snd events_of].
  - destruct (N.eqb (N.of_nat i) (N.of_nat s)) eqn:E.
    + apply N.eqb_eq, Nat2N.inj in E. subst i. contradiction.
    + apply N.eqb_neq in E. apply IH; [lia | | assumption].
      intros j Hj. apply Hok. lia.
  - exfalso. apply Hr, Hok; [lia | assumption].
  - destruct (N.eqb (N.of_nat i) (N.of_nat s)) eqn:E.
    + apply N.eqb_eq, Nat2N.inj in E. subst i. cbn [until_frame].
      do 2 f_equal. apply until_frame_headed, Hh.
    + apply N.eqb_neq in E. apply IH; [lia | | assumption].
      intros j Hj. apply Hok. lia.
Qed.

End Traces.

(** ** [PyObjectPtr.field] and the evaluation helpers *)

Section Helpers.
Context `{Host}.

(** C8. [p.field(name)] raises [NullPyObjectPtr] exactly when the unsigned
    value of the wrapped [SBValue] is 0, which is when [p.is_null()] is true;
    the exception carries [p] and nothing else changes.  When the unsigned
    value is not 0 the call returns
    [p._SBValue.GetChildMemberWithName(name)]. *)
Theorem field_raises_iff_null (p : PyObjectPtr) (name : string) (w : World) :
  let unsigned := GetValueAsUnsigned (host w) (_SBValue p) in
  (is_null p w = (Ok true, w) <-> unsigned = 0%N) /\
  ((exists q, fst (field p name w) = Raised (NullPyObjectPtr q)) <->
   unsigned = 0%N) /\
  (unsigned = 0%N -> field p name w = (Raised (NullPyObjectPtr p), w)) /\
  (unsigned <> 0%N ->
   field p name w =
   (Ok (GetChildMemberWithName (host w) (_SBValue p) name), w)).
Proof.
  cbv zeta. rewrite is_null_run, field_run.
  destruct (N.eqb (GetValueAsUnsigned (host w) (_SBValue p)) 0) eqn:E.
  - apply N.eqb_eq in E. rewrite E. cbn [fst].
    repeat split; eauto; intros; congruence.
  - apply N.eqb_neq in E. cbn [fst].
    repeat split; try congruence.
    intros [q Hq]. discriminate.
Qed.

(** C4. Each evaluation helper is one call of the host's
    [EvaluateExpression] on the frame, with the expression built around
    [obj]; its result is the host's result, and the call is the only thing
    the helper does. *)
Theorem evaluation_helpers_delegate (fr : SBFrame) (obj : string) (w : World) :
  Evaluate_PyObject_AsUTF8 fr obj w =
    (Ok (EvaluateExpression (host w) fr ("PyUnicode_AsUTF8(" +:+ obj +:+ ")")),
     add_events w [EvEval fr ("PyUnicode_AsUTF8(" +:+ obj +:+ ")")]) /\
  Evaluate_LineNo fr obj w =
    (Ok (EvaluateExpression (host w) fr ("PyFrame_GetLineNumber(" +:+ obj +:+ ")")),
     add_events w [EvEval fr ("PyFrame_GetLineNumber(" +:+ obj +:+ ")")]).
Proof.
  unfold Evaluate_PyObject_AsUTF8, Evaluate_LineNo.
  split; apply evaluate_run.
Qed.

End Helpers.

(** In the small host: a null pointer raises, a non-null one yields the
    member. *)
Lemma field_raises_iff_null_witness :
  field (Toy.ptr Toy.invalid) "f_code" (Toy.world Toy.stack) =
    (Raised (NullPyObjectPtr (Toy.ptr Toy.invalid)), Toy.world Toy.stack)
  /\ field (Toy.ptr (Toy.pyframe (Some "app.py") (Some "work"))) "f_code"
       (Toy.world Toy.stack) =
     (Ok (Toy.Val 8192 (Some "0x2000")
            [("co_filename", Toy.Val 12288 (Some "app.py") []);
             ("co_name", Toy.Val 16384 (Some "work") [])]),
      Toy.world Toy.stack).
Proof.
  split.
  - apply (proj1 (proj2 (proj2
      (field_raises_iff_null (Toy.ptr Toy.invalid) "f_code"
         (Toy.world Toy.stack))))).
    reflexivity.
  - apply (proj2 (proj2 (proj2
      (field_raises_iff_null
         (Toy.ptr (Toy.pyframe (Some "app.py") (Some "work"))) "f_code"
         (Toy.world Toy.stack))))).
    cbn. lia.
Defined.

(** ** The back trace *)

Section Backtrace.
Context `{Host}.
Variables (debugger : option SBDebugger) (command result dict thread : PyArg).
Variable w : World.

Let h := host w.
Let t := target_thread h debugger thread.
Let run := py3bt debugger command result dict thread.

(** C3. For a frame of the target thread whose function name is not
    [PyEval_EvalFrameEx], nothing is recorded between its fetch and the next
    one: no line is printed and no expression is evaluated for it.  Over the
    whole run, every expression evaluated in the inferior is evaluated in a
    [PyEval_EvalFrameEx] frame. *)
Theorem py3bt_silent_on_native_frames :
  (forall i : N,
     ~ interpreted h (GetFrameAtIndex h t i) ->
     events_of i (effects run w) = []) /\
  (forall fr expr, In (EvEval fr expr) (effects run w) -> interpreted h fr).
Proof.
  unfold run. rewrite py3bt_effects. unfold py3bt_outcome. split.
  - intros i Hn. apply loop_events_of_native. exact Hn.
  - intros fr expr. apply loop_eval_interpreted.
Qed.

(** C1 (amended). For a frame of the target thread other than the outermost
    one, whose function name is [PyEval_EvalFrameEx], and such that [f] and
    [f->f_code] are non-null in it and in every [PyEval_EvalFrameEx] frame
    before it, [py3bt] evaluates [PyFrame_GetLineNumber(f)] in that frame and
    prints exactly one line for it,
    [frame #<id>: <file> - <name>:<line>], made of the frame id and of what
    the host reports as the value of [co_filename], of [co_name] and of the
    line number (a dot standing for a missing value). *)
Theorem py3bt_prints_interpreted_frame (i : N) :
  let fr := GetFrameAtIndex h t i in
  (i + 1 < GetNumFrames h t)%N ->
  interpreted h fr ->
  (forall j : N, (j <= i)%N ->
     interpreted h (GetFrameAtIndex h t j) ->
     readable h (GetFrameAtIndex h t j)) ->
  events_of i (effects run w) =
  [ EvEval fr "PyFrame_GetLineNumber(f)";
    EvPrint ("frame #" +:+ pretty (GetFrameID h fr) +:+ ": "
             +:+ shown (frame_filename h fr) +:+ " - "
             +:+ shown (frame_name h fr) +:+ ":"
             +:+ shown (frame_lineno h fr)) ].
Proof.
  cbv zeta. intros Hlt Hint Hok.
  unfold run. rewrite py3bt_effects. unfold py3bt_outcome.
  rewrite frame_indices_seq. fold h t.
  assert (Ei : i = N.of_nat (N.to_nat i)) by lia.
  revert Hlt Hint Hok. generalize (N.to_nat i) Ei. intros n ->. intros Hlt Hint Hok.
  apply (loop_events_of_interpreted h t); [lia | | exact Hint].
  intros j Hj. apply Hok. lia.
Qed.

End Backtrace.

(** In the sample stack, frame 1 ([call_function]) leaves no mark. *)
Lemma py3bt_silent_on_native_frames_witness :
  events_of 1 (effects (py3bt None PyNone PyNone PyNone PyNone)
                 (Toy.world Toy.stack)) = [].
Proof.
  apply (proj1 (py3bt_silent_on_native_frames None PyNone PyNone PyNone PyNone
                  (Toy.world Toy.stack)) 1%N).
  vm_compute. discriminate.
Defined.

(** In the sample stack, frame 2 is the module-level code of [app.py]; its
    code object has no name to report. *)
Lemma py3bt_prints_interpreted_frame_witness :
  printed (events_of 2 (effects (py3bt None PyNone PyNone PyNone PyNone)
                          (Toy.world Toy.stack)))
  = ["frame #2: app.py - .:30"].
Proof.
  rewrite (py3bt_prints_interpreted_frame None PyNone PyNone PyNone PyNone
             (Toy.world Toy.stack) 2%N).
  - reflexivity.
  - vm_compute. reflexivity.
  - reflexivity.
  - intros j Hj Hi.
    assert (Hc : j = 0%N \/ j = 1%N \/ j = 2%N) by lia.
    destruct Hc as [ -> | [ -> | -> ] ].
    + split; discriminate.
    + discriminate Hi.
    + split; discriminate.
Defined.

(** C1 as stated fails: with a null [f] in the innermost frame the call ends
    in [NullPyObjectPtr] before any line is printed. *)
Lemma py3bt_null_frame_not_printed :
  fst (py3bt None PyNone PyNone PyNone PyNone (Toy.world Toy.broken_stack))
    = Raised (NullPyObjectPtr (Toy.ptr Toy.invalid))
  /\ printed (effects (py3bt None PyNone PyNone PyNone PyNone)
                (Toy.world Toy.broken_stack)) = []
  /\ ~ every_interpreted_frame_printed None PyNone PyNone PyNone PyNone
         (Toy.world Toy.broken_stack).
Proof.
  split; [reflexivity|]. split; [reflexivity|].
  intros Hc. specialize (Hc 0%N).
  assert (Hp : printed (events_of 0
                 (effects (py3bt None PyNone PyNone PyNone PyNone)
                    (Toy.world Toy.broken_stack))) = []) by reflexivity.
  rewrite Hp in Hc. discriminate Hc; reflexivity.
Qed.

(** ** Order of the visits and of the lines *)

Section Order.
Context `{Host}.
Variable h : HostState.
Variable t : SBThread.

Lemma indices_sorted k : forall s, StronglySorted N.lt (map N.of_nat (seq s k)).
Proof.
  induction k as [|k IH]; intros s; cbn [seq map]; constructor; [apply IH|].
  apply List.Forall_forall. intros x (n & <- & Hn%in_seq)%in_map_iff. lia.
Qed.

Lemma indices_nodup k : forall s, NoDup (map N.of_nat (seq s k)).
Proof.
  induction k as [|k IH]; intros s; cbn [seq map]; constructor; [|apply IH].
  rewrite list_elem_of_In.
  intros (n & E & Hn%in_seq)%in_map_iff. lia.
Qed.

(** The loop fetches an initial segment of its indices, each once. *)
Lemma loop_visited k : forall s,
  exists k', (k' <= k)%nat /\
    visited (snd (loop_outcome h t (map N.of_nat (seq s k)))) =
    map N.of_nat (seq s k').
Proof.
  induction k as [|k IH]; intros s.
  - exists 0%nat. split; [lia | reflexivity].
  - cbn [seq map]. destruct (IH (S s)) as (k' & Hk' & E).
    destruct (loop_outcome_cons h t (N.of_nat s) (map N.of_nat (seq (S s) k)))
      as [[_ ->]|[(_ & _ & p & ->)|(_ & _ & ->)]]; cbn [snd visited].
    + exists (S k'). split; [lia|]. rewrite E. reflexivity.
    + exists 1%nat. split; [lia | reflexivity].
    + exists (S k'). split; [lia|]. rewrite E. reflexivity.
Qed.

(** Every line is printed under the frame it describes, and the frames of
    the lines come in increasing order. *)
Lemma loop_tagged k : forall s,
  let tr := snd (loop_outcome h t (map N.of_nat (seq s k))) in
  map snd (tagged None tr) = printed tr /\
  Forall (fun p => snd p = frame_line h (GetFrameAtIndex h t (fst p)))
    (tagged None tr) /\
  Forall (fun j => (N.of_nat s <= j)%N) (map fst (tagged None tr)) /\
  StronglySorted N.lt (map fst (tagged None tr)).
Proof.
  induction k as [|k IH]; intros s; cbv zeta.
  - cbn. repeat split; constructor.
  - cbn [seq map]. destruct (IH (S s)) as (Ep & Hl & Hge & Hs).
    pose proof (loop_outcome_headed h t (map N.of_nat (seq (S s) k))) as Hh.
    destruct (loop_outcome_cons h t (N.of_nat s) (map N.of_nat (seq (S s) k)))
      as [[_ ->]|[(_ & _ & p & ->)|(_ & _ & ->)]]; cbn [snd tagged printed].
    + rewrite (tagged_headed _ _ Hh). repeat split; try assumption.
      eapply Forall_impl; [exact Hge|]. cbn. intros; lia.
    + cbn. repeat split; constructor.
    + rewrite (tagged_headed _ _ Hh). cbn [map fst snd].
      repeat split.
      * rewrite Ep. reflexivity.
      * constructor; [reflexivity | assumption].
      * constructor; [lia|].
        eapply Forall_impl; [exact Hge|]. cbn. intros; lia.
      * constructor; [assumption|].
        eapply Forall_impl; [exact Hge|]. cbn. intros; lia.
Qed.

(** Every printed line is the line of an interpreter frame of the loop. *)
Lemma loop_printed l line :
  In line (printed (snd (loop_outcome h t l))) ->
  exists i, In i l /\ interpreted h (GetFrameAtIndex h t i) /\
            line = frame_line h (GetFrameAtIndex h t i).
Proof.
  induction l as [|j l IH]; [intros []|].
  destruct (loop_outcome_cons h t j l)
    as [[_ ->]|[(_ & _ & p & ->)|(Hi & _ & ->)]]; cbn [snd printed In].
  - intros (i & Hin & Hint & E)%IH. exists i. auto.
  - intros [].
  - intros [E|(i & Hin & Hint & E)%IH].
    + exists j. auto.
    + exists i. auto.
Qed.

End Order.

(** ** Order, state and determinism of [py3bt] *)

Section Py3bt.
Context `{Host}.

Lemma shown_missing v : missing v -> shown v = ".".
Proof. intros [->| ->]; reflexivity. Qed.

Lemma shown_present v : ~ missing v -> v = Some (shown v).
Proof.
  unfold missing. destruct v as [[|a s]|]; intros Hm; try reflexivity;
    exfalso; apply Hm; auto.
Qed.

Lemma frame_outcome_agree h1 h2 t fr :
  same_answers h1 h2 t -> frame_outcome h1 fr = frame_outcome h2 fr.
Proof.
  intros (_ & _ & Hfn & Hid & Hvar & Hmem & Hu & Hv & Hev).
  unfold frame_outcome, frame_line, frame_filename, frame_name, frame_lineno,
    frame_code, frame_f.
  repeat (rewrite Hfn || rewrite Hid || rewrite Hvar || rewrite Hmem
          || rewrite Hu || rewrite Hv || rewrite Hev).
  reflexivity.
Qed.

Lemma loop_outcome_agree h1 h2 t l :
  same_answers h1 h2 t -> loop_outcome h1 t l = loop_outcome h2 t l.
Proof.
  intros Hs. induction l as [|i l IH]; [reflexivity|].
  cbn [loop_outcome]. rewrite IH, (frame_outcome_agree h1 h2 t _ Hs).
  destruct Hs as (_ & Hfr & _). rewrite Hfr. reflexivity.
Qed.

Section OneCall.
Variables (debugger : option SBDebugger) (command result dict thread : PyArg).
Variable w : World.

Let h := host w.
Let t := target_thread h debugger thread.
Let run := py3bt debugger command result dict thread.

(** C5. [py3bt] fetches the frames of the target thread by index, starting
    at 0 (the innermost frame) and going up one by one: the indices fetched
    are [0, 1, ..., k-1] for some [k], so each index is fetched at most once
    and in strictly increasing order.  Every line is printed under the frame
    it describes, and the frames of the printed lines come in strictly
    increasing index order. *)
Theorem py3bt_visits_in_order :
  (exists k, (k <= N.to_nat (GetNumFrames h t) - 1)%nat /\
             visited (effects run w) = map N.of_nat (seq 0 k)) /\
  StronglySorted N.lt (visited (effects run w)) /\
  NoDup (visited (effects run w)) /\
  map snd (tagged None (effects run w)) = printed (effects run w) /\
  Forall (fun p => snd p = frame_line h (GetFrameAtIndex h t (fst p)))
    (tagged None (effects run w)) /\
  StronglySorted N.lt (map fst (tagged None (effects run w))).
Proof.
  unfold run. rewrite py3bt_effects. unfold py3bt_outcome.
  rewrite frame_indices_seq. fold h t.
  destruct (loop_visited h t (N.to_nat (GetNumFrames h t) - 1) 0)
    as (k & Hk & Ev).
  destruct (loop_tagged h t (N.to_nat (GetNumFrames h t) - 1) 0)
    as (Ep & Hl & _ & Hs).
  rewrite Ev. repeat split; eauto using indices_sorted, indices_nodup.
Qed.

(** C6. A call of [py3bt] changes nothing but the output: the module
    namespace ([CMDS], the classes and the functions) and the state of the
    host (hence its selected target, process and thread) are what they were,
    whether the call returns or raises; the trace only grows.  Nothing is
    kept for later: a call made afterwards ends and prints as it would have
    without the first. *)
Theorem py3bt_preserves_state :
  let w' := snd (run w) in
  globals w' = globals w /\
  host w' = host w /\
  (forall d,
     GetSelectedTarget (host w') d = GetSelectedTarget (host w) d /\
     GetProcess (host w') (GetSelectedTarget (host w') d) =
       GetProcess (host w) (GetSelectedTarget (host w) d) /\
     GetSelectedThread (host w') (GetProcess (host w') (GetSelectedTarget (host w') d)) =
       GetSelectedThread (host w) (GetProcess (host w) (GetSelectedTarget (host w) d))) /\
  trace w' = trace w ++ effects run w /\
  (forall d c r di th,
     fst (py3bt d c r di th w') = fst (py3bt d c r di th w) /\
     effects (py3bt d c r di th) w' = effects (py3bt d c r di th) w).
Proof.
  cbv zeta. unfold run. rewrite py3bt_effects, py3bt_run. cbn [snd fst].
  cbn [add_events host globals trace].
  repeat split.
  - rewrite !py3bt_run. reflexivity.
  - rewrite !py3bt_effects. reflexivity.
Qed.

(** C10. Every line [py3bt] prints is the line of a [PyEval_EvalFrameEx]
    frame of the target thread, [frame #<id>: <file> - <name>:<line>], in
    which the position of a value the host reported as [None] or as the
    empty string holds the single character [.], and the position of any
    other value holds that value. *)
Theorem py3bt_missing_value_as_dot (line : string) :
  In line (printed (effects run w)) ->
  exists i file name lineno,
    let fr := GetFrameAtIndex h t i in
    interpreted h fr /\
    line = "frame #" +:+ pretty (GetFrameID h fr) +:+ ": " +:+ file
           +:+ " - " +:+ name +:+ ":" +:+ lineno /\
    (missing (frame_filename h fr) -> file = ".") /\
    (missing (frame_name h fr) -> name = ".") /\
    (missing (frame_lineno h fr) -> lineno = ".") /\
    (~ missing (frame_filename h fr) -> frame_filename h fr = Some file) /\
    (~ missing (frame_name h fr) -> frame_name h fr = Some name) /\
    (~ missing (frame_lineno h fr) -> frame_lineno h fr = Some lineno).
Proof.
  unfold run. rewrite py3bt_effects. unfold py3bt_outcome. fold h t.
  intros (i & _ & Hint & ->)%loop_printed.
  exists i, (shown (frame_filename h (GetFrameAtIndex h t i))),
    (shown (frame_name h (GetFrameAtIndex h t i))),
    (shown (frame_lineno h (GetFrameAtIndex h t i))).
  cbv zeta. split; [exact Hint|]. split; [reflexivity|].
  repeat split; auto using shown_missing, shown_present.
Qed.

End OneCall.

(** C7. Two calls of [py3bt] that work on the same thread, in host states
    that give the same answers about it (frame list, variable values,
    results of evaluated expressions), print the same lines; they also end
    the same way and leave the same events.  Nothing else matters: neither
    the other arguments, nor the rest of the two worlds. *)
Theorem py3bt_deterministic
    (d1 d2 : option SBDebugger) (c1 c2 r1 r2 di1 di2 th1 th2 : PyArg)
    (w1 w2 : World) :
  target_thread (host w1) d1 th1 = target_thread (host w2) d2 th2 ->
  same_answers (host w1) (host w2) (target_thread (host w1) d1 th1) ->
  printed (effects (py3bt d1 c1 r1 di1 th1) w1) =
    printed (effects (py3bt d2 c2 r2 di2 th2) w2) /\
  effects (py3bt d1 c1 r1 di1 th1) w1 = effects (py3bt d2 c2 r2 di2 th2) w2 /\
  fst (py3bt d1 c1 r1 di1 th1 w1) = fst (py3bt d2 c2 r2 di2 th2 w2).
Proof.
  intros Et Hs. rewrite !py3bt_effects, !py3bt_run. cbn [fst].
  assert (E : py3bt_outcome (host w1) d1 th1 = py3bt_outcome (host w2) d2 th2).
  { unfold py3bt_outcome, frame_indices. rewrite <- Et.
    destruct Hs as (Hn & Hrest). rewrite <- Hn.
    apply loop_outcome_agree. split; assumption. }
  rewrite E. auto.
Qed.

(** C2 (the code as it is). With the module namespace as the module body
    leaves it, [__lldb_init_module] hands the host exactly one command,
    [command script add -f lldb_utils.py3bt py3-bt]: the name [py3-bt] is
    bound to the function [py3bt] of a module called [lldb_utils], which is
    not the name of this module. *)
Theorem lldb_init_module_names_lldb_utils
    (debugger : SBDebugger) (dict : PyArg) (hs : HostState) (tr : list Event) :
  __lldb_init_module debugger dict
    {| host := hs; globals := module_namespace; trace := tr |} =
  (Ok tt,
   {| host := HandleCommand hs debugger
                "command script add -f lldb_utils.py3bt py3-bt";
      globals := module_namespace; trace := tr |})
  /\ "command script add -f lldb_utils.py3bt py3-bt" =
     "command script add -f " +:+ "lldb_utils" +:+ "." +:+ "py3bt" +:+ " "
       +:+ "py3-bt"
  /\ "lldb_utils" <> module_name.
Proof.
  split; [|split; [reflexivity | discriminate]].
  set (w := {| host := hs; globals := module_namespace; trace := tr |}).
  assert (Eg : global "CMDS" w = (Ok (GCommands [("py3-bt", "py3bt")]), w)).
  { unfold global. cbn [globals w]. reflexivity. }
  assert (Ec : CMDS w = (Ok [("py3-bt", "py3bt")], w)).
  { unfold CMDS. rewrite (bind_ok _ _ _ _ _ Eg). reflexivity. }
  unfold __lldb_init_module. rewrite (bind_ok _ _ _ _ _ Ec).
  reflexivity.
Qed.

End Py3bt.

(** In the sample stack the name of the module-level code is missing and
    shows as a dot. *)
Lemma py3bt_missing_value_as_dot_witness :
  exists i file name lineno,
    let h := host (Toy.world Toy.stack) in
    let fr := GetFrameAtIndex h Toy.stack i in
    interpreted h fr /\
    "frame #2: app.py - .:30" =
      "frame #" +:+ pretty (GetFrameID h fr) +:+ ": " +:+ file
      +:+ " - " +:+ name +:+ ":" +:+ lineno /\
    (missing (frame_filename h fr) -> file = ".") /\
    (missing (frame_name h fr) -> name = ".") /\
    (missing (frame_lineno h fr) -> lineno = ".") /\
    (~ missing (frame_filename h fr) -> frame_filename h fr = Some file) /\
    (~ missing (frame_name h fr) -> frame_name h fr = Some name) /\
    (~ missing (frame_lineno h fr) -> frame_lineno h fr = Some lineno).
Proof.
  apply (py3bt_missing_value_as_dot None PyNone PyNone PyNone PyNone
           (Toy.world Toy.stack) "frame #2: app.py - .:30").
  vm_compute. right. left. reflexivity.
Defined.

(** The same thread seen from two different worlds, with different
    arguments: the same two lines. *)
Lemma py3bt_deterministic_witness :
  printed (effects (py3bt None PyNone PyNone PyNone PyNone)
             (Toy.world Toy.stack)) =
  printed (effects (@py3bt Toy.toy_host (Some tt) (PyString "-v") PyNone
                      (PyString "x") (Toy.on_thread Toy.stack))
             (Toy.later_world Toy.stack)).
Proof.
  apply (@py3bt_deterministic Toy.toy_host None (Some tt) PyNone (PyString "-v")
           PyNone PyNone PyNone (PyString "x") PyNone (Toy.on_thread Toy.stack)
           (Toy.world Toy.stack) (Toy.later_world Toy.stack)).
  - reflexivity.
  - repeat split; reflexivity.
Defined.

(** The loop stops one short of the number of frames: the outermost frame is
    never fetched, whatever it is. *)
Example py3bt_outermost_frame_not_fetched :
  visited (effects (py3bt None PyNone PyNone PyNone PyNone)
             (Toy.world Toy.bare_stack)) = [0%N]
  /\ printed (effects (py3bt None PyNone PyNone PyNone PyNone)
                (Toy.world Toy.bare_stack)) = ["frame #0: app.py - work:12"].
Proof. split; reflexivity. Qed.

(** In the small host the one command handled is the one naming
    [lldb_utils]. *)
Example lldb_init_module_toy :
  Toy.commands
    (host (snd (@__lldb_init_module Toy.toy_host tt PyNone (Toy.world Toy.stack))))
  = ["command script add -f lldb_utils.py3bt py3-bt"].
Proof. reflexivity. Qed.

(** ** Further properties of the loop *)

Section FurtherTraces.
Context `{Host}.
Variable h : HostState.
Variable t : SBThread.

Lemma is_interp_true fr : is_interp h fr = true <-> interpreted h fr.
Proof.
  unfold is_interp. rewrite interpreted_eqb. split.
  - destruct (GetFunctionName h fr) as [s|]; [|discriminate]. eauto.
  - intros (s & -> & E). exact E.
Qed.

Lemma is_interp_false fr : ~ interpreted h fr -> is_interp h fr = false.
Proof.
  intros Hn. destruct (is_interp h fr) eqn:E; [|reflexivity].
  apply is_interp_true in E. contradiction.
Qed.

(** The exception of an iteration names the null pointer it met. *)
Lemma frame_outcome_null fr :
  interpreted h fr -> ~ readable h fr ->
  exists p,
    frame_outcome h fr = (Raised (NullPyObjectPtr p), []) /\
    GetValueAsUnsigned h (_SBValue p) = 0%N /\
    (p = {| _SBValue := frame_f h fr |} \/
     p = {| _SBValue := frame_code h fr |}).
Proof.
  intros (s & En & Es)%interpreted_eqb Hr. unfold frame_outcome.
  rewrite En, Es.
  destruct (N.eqb (GetValueAsUnsigned h (frame_f h fr)) 0) eqn:Ef.
  { apply N.eqb_eq in Ef. eexists. split; [reflexivity|]. cbn. auto. }
  destruct (N.eqb (GetValueAsUnsigned h (frame_code h fr)) 0) eqn:Ec.
  { apply N.eqb_eq in Ec. eexists. split; [reflexivity|]. cbn. auto. }
  apply N.eqb_neq in Ef, Ec. exfalso. apply Hr. split; assumption.
Qed.

Lemma loop_outcome_cons_null i l :
  interpreted h (GetFrameAtIndex h t i) ->
  ~ readable h (GetFrameAtIndex h t i) ->
  exists p,
    loop_outcome h t (i :: l) = (Raised (NullPyObjectPtr p), [EvFrame t i]) /\
    GetValueAsUnsigned h (_SBValue p) = 0%N /\
    (p = {| _SBValue := frame_f h (GetFrameAtIndex h t i) |} \/
     p = {| _SBValue := frame_code h (GetFrameAtIndex h t i) |}).
Proof.
  intros Hi Hr. destruct (frame_outcome_null _ Hi Hr) as (p & E & Hu & Hp).
  exists p. cbn [loop_outcome]. rewrite E. auto.
Qed.

(** Whatever the loop raises is a null [f] or [f_code] of one of its
    interpreter frames. *)
Lemma loop_raised l e :
  fst (loop_outcome h t l) = Raised e ->
  exists i p,
    In i l /\ interpreted h (GetFrameAtIndex h t i) /\
    e = NullPyObjectPtr p /\
    GetValueAsUnsigned h (_SBValue p) = 0%N /\
    (p = {| _SBValue := frame_f h (GetFrameAtIndex h t i) |} \/
     p = {| _SBValue := frame_code h (GetFrameAtIndex h t i) |}).
Proof.
  induction l as [|j l IH]; [discriminate|].
  destruct (loop_outcome_cons h t j l)
    as [[_ ->]|[(Hi & Hr & _)|(_ & _ & ->)]]; cbn [fst].
  - intros (i & p & Hin & Hrest)%IH. exists i, p. split; [right|]; assumption.
  - destruct (loop_outcome_cons_null j l Hi Hr) as (p & -> & Hu & Hp).
    cbn [fst]. intros [= <-]. exists j, p. repeat split; auto. left. reflexivity.
  - intros (i & p & Hin & Hrest)%IH. exists i, p. split; [right|]; assumption.
Qed.

(** With no null pointer in the way the loop runs to its end and prints the
    whole back trace. *)
Lemma loop_healthy k : forall s,
  (forall j, (s <= j < s + k)%nat ->
     interpreted h (GetFrameAtIndex h t (N.of_nat j)) ->
     readable h (GetFrameAtIndex h t (N.of_nat j))) ->
  fst (loop_outcome h t (map N.of_nat (seq s k))) = Ok tt /\
  visited (snd (loop_outcome h t (map N.of_nat (seq s k)))) =
    map N.of_nat (seq s k) /\
  printed (snd (loop_outcome h t (map N.of_nat (seq s k)))) =
    backtrace h t (map N.of_nat (seq s k)).
Proof.
  induction k as [|k IH]; intros s Hok; [repeat split|].
  cbn [seq map backtrace].
  destruct (IH (S s)) as (Er & Ev & Ep); [intros j Hj; apply Hok; lia|].
  destruct (loop_outcome_cons h t (N.of_nat s) (map N.of_nat (seq (S s) k)))
    as [[Hn ->]|[(Hi & Hr & _)|(Hi & _ & ->)]]; cbn [fst snd visited printed].
  - rewrite (is_interp_false _ Hn), Ev, Ep. auto.
  - exfalso. apply Hr, Hok; [lia | assumption].
  - rewrite (proj2 (is_interp_true _) Hi), Ev, Ep. auto.
Qed.

(** The loop stops at the first interpreter frame with a null pointer, having
    printed the back trace of the frames before it. *)
Lemma loop_first_null k : forall s j,
  (s <= j < s + k)%nat ->
  interpreted h (GetFrameAtIndex h t (N.of_nat j)) ->
  ~ readable h (GetFrameAtIndex h t (N.of_nat j)) ->
  (forall i, (s <= i < j)%nat ->
     interpreted h (GetFrameAtIndex h t (N.of_nat i)) ->
     readable h (GetFrameAtIndex h t (N.of_nat i))) ->
  exists p,
    fst (loop_outcome h t (map N.of_nat (seq s k))) = Raised (NullPyObjectPtr p) /\
    GetValueAsUnsigned h (_SBValue p) = 0%N /\
    (p = {| _SBValue := frame_f h (GetFrameAtIndex h t (N.of_nat j)) |} \/
     p = {| _SBValue := frame_code h (GetFrameAtIndex h t (N.of_nat j)) |}) /\
    visited (snd (loop_outcome h t (map N.of_nat (seq s k)))) =
      map N.of_nat (seq s (S j - s)) /\
    printed (snd (loop_outcome h t (map N.of_nat (seq s k)))) =
      backtrace h t (map N.of_nat (seq s (j - s))).
Proof.
  induction k as [|k IH]; intros s j Hj Hi Hr Hok; [lia|].
  cbn [seq map].
  destruct (Nat.eq_dec s j) as [->|Hne].
  - destruct (loop_outcome_cons_null (N.of_nat j)
                (map N.of_nat (seq (S j) k)) Hi Hr) as (p & -> & Hu & Hp).
    exists p. cbn [fst snd visited printed].
    replace (S j - j)%nat with 1%nat by lia.
    replace (j - j)%nat with 0%nat by lia. auto.
  - destruct (IH (S s) j) as (p & Er & Hu & Hp & Ev & Ep);
      [lia | assumption | assumption | intros i Hi'; apply Hok; lia |].
    exists p.
    replace (S j - s)%nat with (S (S j - S s)) by lia.
    replace (j - s)%nat with (S (j - S s)) by lia.
    cbn [seq map backtrace].
    destruct (loop_outcome_cons h t (N.of_nat s) (map N.of_nat (seq (S s) k)))
      as [[Hn ->]|[(Hi' & Hr' & _)|(Hi' & _ & ->)]];
      cbn [fst snd visited printed].
    + rewrite (is_interp_false _ Hn), Ev, Ep. auto.
    + exfalso. apply Hr', Hok; [lia | assumption].
    + rewrite (proj2 (is_interp_true _) Hi'), Ev, Ep. auto.
Qed.

(** One evaluation of the line number per printed line, at most one line per
    fetched frame, and every fetch on the thread of the loop. *)
Lemma loop_counts l :
  map snd (evaluated (snd (loop_outcome h t l))) =
    repeat "PyFrame_GetLineNumber(f)" (length (printed (snd (loop_outcome h t l)))) /\
  (length (printed (snd (loop_outcome h t l)))
   <= length (visited (snd (loop_outcome h t l))))%nat /\
  (length (visited (snd (loop_outcome h t l))) <= length l)%nat /\
  Forall (fun e => match e with EvFrame t' _ => t' = t | _ => True end)
    (snd (loop_outcome h t l)).
Proof.
  induction l as [|j l (Ee & Hp & Hv & Ht)]; [repeat split; constructor|].
  destruct (loop_outcome_cons h t j l)
    as [[_ ->]|[(_ & _ & p & ->)|(_ & _ & ->)]];
    cbn [snd evaluated printed visited length map repeat].
  - repeat split; [assumption | lia | lia |]. constructor; auto.
  - repeat split; [lia | lia |]. repeat constructor.
  - rewrite Ee. repeat split; [lia | lia |]. repeat constructor; auto.
Qed.

End FurtherTraces.

(** ** The whole back trace *)

Section WholeTrace.
Context `{Host}.
Variables (debugger : option SBDebugger) (command result dict thread : PyArg).
Variable w : World.

Let h := host w.
Let t := target_thread h debugger thread.
Let run := py3bt debugger command result dict thread.
Let last := (N.to_nat (GetNumFrames h t) - 1)%nat.

(** X1. When no [PyEval_EvalFrameEx] frame below the outermost one has a
    null [f] or [f->f_code], [py3bt] returns normally, fetches every frame
    but the outermost once, in order, and prints exactly the lines of the
    [PyEval_EvalFrameEx] frames among them, in that order. *)
Theorem py3bt_complete_when_readable :
  (forall i : N, (i + 1 < GetNumFrames h t)%N ->
     interpreted h (GetFrameAtIndex h t i) ->
     readable h (GetFrameAtIndex h t i)) ->
  fst (run w) = Ok tt /\
  visited (effects run w) = map N.of_nat (seq 0 last) /\
  printed (effects run w) = backtrace h t (map N.of_nat (seq 0 last)).
Proof.
  intros Hok. unfold run. rewrite py3bt_effects, py3bt_run. cbn [fst].
  unfold py3bt_outcome. rewrite frame_indices_seq. fold h t last.
  apply loop_healthy. intros j Hj. apply Hok. unfold last in Hj. lia.
Qed.

(** X2. When frame [j] is the first [PyEval_EvalFrameEx] frame with a null
    [f] or [f->f_code], [py3bt] raises [NullPyObjectPtr] carrying that null
    pointer; frame [j] is the last one fetched, and the lines printed before
    the exception are exactly those of the [PyEval_EvalFrameEx] frames
    before [j]. *)
Theorem py3bt_stops_at_first_null (j : N) :
  (j + 1 < GetNumFrames h t)%N ->
  interpreted h (GetFrameAtIndex h t j) ->
  ~ readable h (GetFrameAtIndex h t j) ->
  (forall i : N, (i < j)%N ->
     interpreted h (GetFrameAtIndex h t i) ->
     readable h (GetFrameAtIndex h t i)) ->
  exists p,
    fst (run w) = Raised (NullPyObjectPtr p) /\
    GetValueAsUnsigned h (_SBValue p) = 0%N /\
    (p = {| _SBValue := frame_f h (GetFrameAtIndex h t j) |} \/
     p = {| _SBValue := frame_code h (GetFrameAtIndex h t j) |}) /\
    visited (effects run w) = map N.of_nat (seq 0 (S (N.to_nat j))) /\
    printed (effects run w) = backtrace h t (map N.of_nat (seq 0 (N.to_nat j))).
Proof.
  intros Hj Hi Hr Hok. unfold run. rewrite py3bt_effects, py3bt_run. cbn [fst].
  unfold py3bt_outcome. rewrite frame_indices_seq. fold h t last.
  assert (Ej : j = N.of_nat (N.to_nat j)) by lia.
  revert Hj Hi Hr Hok. generalize (N.to_nat j) Ej. intros n ->.
  intros Hj Hi Hr Hok.
  destruct (loop_first_null h t last 0 n) as (p & Er & Hu & Hp & Ev & Ep);
    [unfold last; lia | assumption | assumption | intros i Hi'; apply Hok; lia |].
  exists p. rewrite Er, Ev, Ep.
  replace (S n - 0)%nat with (S n) by lia.
  replace (n - 0)%nat with n by lia. auto.
Qed.

(** X3. On a thread with no frame or with a single frame, [py3bt] does
    nothing at all: it returns normally and the world, trace included, is
    what it was. *)
Theorem py3bt_short_thread_noop :
  (GetNumFrames h t <= 1)%N -> run w = (Ok tt, w).
Proof.
  intros Hn. unfold run. rewrite py3bt_run.
  unfold py3bt_outcome. rewrite frame_indices_seq. fold h t.
  replace (N.to_nat (GetNumFrames h t) - 1)%nat with 0%nat by lia.
  cbn [seq map loop_outcome fst snd]. rewrite add_events_nil. reflexivity.
Qed.

(** X4. The only expression [py3bt] evaluates in the inferior is
    [PyFrame_GetLineNumber(f)], once per printed line; it prints at most one
    line per fetched frame, fetches fewer frames than the thread has, and
    fetches them from the target thread only. *)
Theorem py3bt_effect_counts :
  map snd (evaluated (effects run w)) =
    repeat "PyFrame_GetLineNumber(f)" (length (printed (effects run w))) /\
  (length (printed (effects run w)) <= length (visited (effects run w)))%nat /\
  (length (visited (effects run w)) <= N.to_nat (GetNumFrames h t) - 1)%nat /\
  Forall (fun e => match e with EvFrame t' _ => t' = t | _ => True end)
    (effects run w).
Proof.
  unfold run. rewrite py3bt_effects. unfold py3bt_outcome. fold h t.
  destruct (loop_counts h t (frame_indices h t)) as (Ee & Hp & Hv & Ht).
  repeat split; try assumption.
  etransitivity; [exact Hv|].
  rewrite frame_indices_seq, length_map, length_seq. reflexivity.
Qed.

(** X5. Whatever the host answers, the only exception [py3bt] raises is
    [NullPyObjectPtr], and it carries a pointer whose unsigned value is 0:
    the [f] or the [f->f_code] of a [PyEval_EvalFrameEx] frame below the
    outermost one. *)
Theorem py3bt_raises_only_null (e : Exn) :
  fst (run w) = Raised e ->
  exists (i : N) (p : PyObjectPtr),
    (i + 1 < GetNumFrames h t)%N /\
    interpreted h (GetFrameAtIndex h t i) /\
    e = NullPyObjectPtr p /\
    GetValueAsUnsigned h (_SBValue p) = 0%N /\
    (p = {| _SBValue := frame_f h (GetFrameAtIndex h t i) |} \/
     p = {| _SBValue := frame_code h (GetFrameAtIndex h t i) |}).
Proof.
  unfold run. rewrite py3bt_run. cbn [fst]. unfold py3bt_outcome. fold h t.
  intros (i & p & Hin & Hrest)%loop_raised. exists i, p. split; [|exact Hrest].
  rewrite frame_indices_seq in Hin.
  apply in_map_iff in Hin as (n & <- & Hn%in_seq). lia.
Qed.

End WholeTrace.

(** The sample stack is read to its end: two lines, four fetches. *)
Lemma py3bt_complete_when_readable_witness :
  fst (py3bt None PyNone PyNone PyNone PyNone (Toy.world Toy.stack)) = Ok tt /\
  visited (effects (py3bt None PyNone PyNone PyNone PyNone)
             (Toy.world Toy.stack)) = [0; 1; 2; 3]%N /\
  printed (effects (py3bt None PyNone PyNone PyNone PyNone)
             (Toy.world Toy.stack)) =
    ["frame #0: app.py - work:12"; "frame #2: app.py - .:30"].
Proof.
  apply (py3bt_complete_when_readable None PyNone PyNone PyNone PyNone
           (Toy.world Toy.stack)).
  intros i Hi Hint.
  assert (Hc : i = 0%N \/ i = 1%N \/ i = 2%N \/ i = 3%N) by (cbn in Hi; lia).
  destruct Hc as [ -> | [ -> | [ -> | -> ] ] ].
  - split; discriminate.
  - discriminate Hint.
  - split; discriminate.
  - discriminate Hint.
Defined.

(** With a null [f] in the innermost frame the call stops there. *)
Lemma py3bt_stops_at_first_null_witness :
  exists p,
    fst (py3bt None PyNone PyNone PyNone PyNone (Toy.world Toy.broken_stack))
      = Raised (NullPyObjectPtr p) /\
    GetValueAsUnsigned (host (Toy.world Toy.broken_stack)) (_SBValue p) = 0%N /\
    (p = Toy.ptr Toy.invalid \/ p = Toy.ptr Toy.invalid) /\
    visited (effects (py3bt None PyNone PyNone PyNone PyNone)
               (Toy.world Toy.broken_stack)) = [0%N] /\
    printed (effects (py3bt None PyNone PyNone PyNone PyNone)
               (Toy.world Toy.broken_stack)) = [].
Proof.
  apply (py3bt_stops_at_first_null None PyNone PyNone PyNone PyNone
           (Toy.world Toy.broken_stack) 0%N).
  - reflexivity.
  - reflexivity.
  - intros [Hf _]. apply Hf. reflexivity.
  - intros i Hi. lia.
Defined.

(** A thread that consists of [main] alone. *)
Lemma py3bt_short_thread_noop_witness :
  py3bt None PyNone PyNone PyNone PyNone (Toy.world [Toy.native_frame 0 "main"])
  = (Ok tt, Toy.world [Toy.native_frame 0 "main"]).
Proof.
  apply (py3bt_short_thread_noop None PyNone PyNone PyNone PyNone
           (Toy.world [Toy.native_frame 0 "main"])).
  cbn. lia.
Defined.

(** The exception of the broken stack is the null [f] of frame 0. *)
Lemma py3bt_raises_only_null_witness :
  exists (i : N) (p : PyObjectPtr),
    (i + 1 < 3)%N /\
    interpreted (host (Toy.world Toy.broken_stack))
      (GetFrameAtIndex (host (Toy.world Toy.broken_stack)) Toy.broken_stack i) /\
    NullPyObjectPtr (Toy.ptr Toy.invalid) = NullPyObjectPtr p /\
    GetValueAsUnsigned (host (Toy.world Toy.broken_stack)) (_SBValue p) = 0%N /\
    (p = {| _SBValue := frame_f (host (Toy.world Toy.broken_stack))
              (GetFrameAtIndex (host (Toy.world Toy.broken_stack))
                 Toy.broken_stack i) |} \/
     p = {| _SBValue := frame_code (host (Toy.world Toy.broken_stack))
              (GetFrameAtIndex (host (Toy.world Toy.broken_stack))
                 Toy.broken_stack i) |}).
Proof.
  apply (py3bt_raises_only_null None PyNone PyNone PyNone PyNone
           (Toy.world Toy.broken_stack) (NullPyObjectPtr (Toy.ptr Toy.invalid))).
  reflexivity.
Defined.

(** ** Registration, [PyObjectPtr.type] and chained fields *)

Section Registration.
Context `{Host}.

Lemma format_script_add cmd func :
  PyStr.format "command script add -f lldb_utils.{func} {cmd}" []
    [("cmd", cmd); ("func", func)] =
  Some (script_add (cmd, func)).
Proof.
  unfold script_add. cbn [fst snd].
  rewrite <- (PyStrFacts.app_empty_r cmd) at 2. reflexivity.
Qed.

(** The commands of [cmds], handed to the host one after the other. *)
Lemma register_loop debugger cmds : forall w,
  for_ cmds (fun cmd =>
    bind (format_ "command script add -f lldb_utils.{func} {cmd}" []
            [("cmd", fst cmd); ("func", snd cmd)])
      (fun text => tell (fun h => HandleCommand h debugger text))) w =
  (Ok tt,
   {| host := fold_left (fun h cmd => HandleCommand h debugger (script_add cmd))
                cmds (host w);
      globals := globals w; trace := trace w |}).
Proof.
  induction cmds as [|[cmd func] cmds IH]; intros w.
  - destruct w. reflexivity.
  - cbn [for_ fold_left fst snd]. unfold format_ at 1.
    rewrite format_script_add.
    rewrite (bind_ok _ _ _ _ _ (bind_ok _ _ _ _ _ (eq_refl :
      ret (script_add (cmd, func)) w = (Ok _, w)))).
    unfold tell at 1. rewrite IH. reflexivity.
Qed.

Lemma lldb_init_module_run debugger dict cmds w :
  globals w !! "CMDS" = Some (GCommands cmds) ->
  __lldb_init_module debugger dict w =
  (Ok tt,
   {| host := fold_left (fun h cmd => HandleCommand h debugger (script_add cmd))
                cmds (host w);
      globals := globals w; trace := trace w |}).
Proof.
  intros Hc.
  assert (Eg : global "CMDS" w = (Ok (GCommands cmds), w)).
  { unfold global. rewrite Hc. reflexivity. }
  assert (Ec : CMDS w = (Ok cmds, w)).
  { unfold CMDS. rewrite (bind_ok _ _ _ _ _ Eg). reflexivity. }
  unfold __lldb_init_module. rewrite (bind_ok _ _ _ _ _ Ec).
  apply register_loop.
Qed.

(** X6. Whatever list of (command, function) pairs [CMDS] is bound to,
    [__lldb_init_module] returns normally after handing the host one command
    per entry, in the order of the list, each of the form
    [command script add -f lldb_utils.<function> <command>]; it prints
    nothing, evaluates nothing and leaves the module namespace as it was. *)
Theorem lldb_init_module_one_command_per_entry
    (debugger : SBDebugger) (dict : PyArg) (cmds : list (string * string))
    (w : World) :
  globals w !! "CMDS" = Some (GCommands cmds) ->
  __lldb_init_module debugger dict w =
  (Ok tt,
   {| host := fold_left
                (fun h cmd =>
                   HandleCommand h debugger
                     ("command script add -f lldb_utils." +:+ snd cmd +:+ " "
                      +:+ fst cmd))
                cmds (host w);
      globals := globals w; trace := trace w |}).
Proof. apply lldb_init_module_run. Qed.

(** X7. When the name [CMDS] is not bound, [__lldb_init_module] raises
    [NameError] for it and the host is handed nothing: the world is what it
    was. *)
Theorem lldb_init_module_without_cmds
    (debugger : SBDebugger) (dict : PyArg) (w : World) :
  globals w !! "CMDS" = None ->
  __lldb_init_module debugger dict w = (Raised (NameError "CMDS"), w).
Proof.
  intros Hc.
  assert (Eg : global "CMDS" w = (Raised (NameError "CMDS"), w)).
  { unfold global. rewrite Hc. reflexivity. }
  unfold __lldb_init_module, CMDS.
  rewrite (bind_raised _ _ _ _ _ (bind_raised _ _ _ _ _ Eg)). reflexivity.
Qed.

(** X8. Nothing guards against a second registration: calling
    [__lldb_init_module] twice hands the host the commands of [CMDS] twice,
    the second round after the first. *)
Theorem lldb_init_module_twice
    (debugger : SBDebugger) (dict1 dict2 : PyArg)
    (cmds : list (string * string)) (w : World) :
  globals w !! "CMDS" = Some (GCommands cmds) ->
  __lldb_init_module debugger dict2
    (snd (__lldb_init_module debugger dict1 w)) =
  (Ok tt,
   {| host := fold_left (fun h cmd => HandleCommand h debugger (script_add cmd))
                (cmds ++ cmds) (host w);
      globals := globals w; trace := trace w |}).
Proof.
  intros Hc. rewrite (lldb_init_module_run debugger dict1 cmds w Hc). cbn [snd].
  erewrite (lldb_init_module_run debugger dict2 cmds); [|exact Hc].
  cbn [host globals trace]. rewrite fold_left_app. reflexivity.
Qed.

(** X9. The module binds no name [PyTypeObjectPtr].  In a world where the
    name is unbound, [p.type()] raises [NameError] for it, whatever [p] is,
    null or not: the field [ob_type] is never read and [NullPyObjectPtr] is
    never raised. *)
Theorem type_raises_name_error :
  module_namespace !! "PyTypeObjectPtr" = None /\
  forall (construct : PyGlobal -> SBValue -> Py PyObjectPtr)
         (self : PyObjectPtr) (w : World),
    globals w !! "PyTypeObjectPtr" = None ->
    type construct self w = (Raised (NameError "PyTypeObjectPtr"), w).
Proof.
  split; [reflexivity|].
  intros construct self w Hn.
  assert (Eg : global "PyTypeObjectPtr" w =
               (Raised (NameError "PyTypeObjectPtr"), w)).
  { unfold global. rewrite Hn. reflexivity. }
  unfold type. rewrite (bind_raised _ _ _ _ _ Eg). reflexivity.
Qed.

(** X10. A chained access [PyObjectPtr(p.field(a)).field(b)] raises
    [NullPyObjectPtr] for the first null link, [p] itself or its member [a],
    and otherwise returns the member [b] of the member [a] of [p]; in no
    case does it change the world. *)
Theorem field_of_field_first_null (p : PyObjectPtr) (a b : string) (w : World) :
  let h := host w in
  let pa := GetChildMemberWithName h (_SBValue p) a in
  (GetValueAsUnsigned h (_SBValue p) = 0%N ->
   field_of_field p a b w = (Raised (NullPyObjectPtr p), w)) /\
  (GetValueAsUnsigned h (_SBValue p) <> 0%N ->
   GetValueAsUnsigned h pa = 0%N ->
   field_of_field p a b w = (Raised (NullPyObjectPtr {| _SBValue := pa |}), w)) /\
  (GetValueAsUnsigned h (_SBValue p) <> 0%N ->
   GetValueAsUnsigned h pa <> 0%N ->
   field_of_field p a b w = (Ok (GetChildMemberWithName h pa b), w)).
Proof.
  cbv zeta. unfold field_of_field. repeat split.
  - intros E%N.eqb_eq.
    rewrite (bind_raised _ _ _ _ _ (field_null p a w E)). reflexivity.
  - intros E%N.eqb_neq E'%N.eqb_eq.
    rewrite (bind_ok _ _ _ _ _ (field_ok p a w E)).
    apply (field_null {| _SBValue := GetChildMemberWithName (host w) (_SBValue p) a |}).
    exact E'.
  - intros E%N.eqb_neq E'%N.eqb_neq.
    rewrite (bind_ok _ _ _ _ _ (field_ok p a w E)).
    apply (field_ok {| _SBValue := GetChildMemberWithName (host w) (_SBValue p) a |}).
    exact E'.
Qed.

End Registration.

(** Two entries, two commands, in order. *)
Lemma lldb_init_module_one_command_per_entry_witness :
  Toy.commands
    (host (snd (@__lldb_init_module Toy.toy_host tt PyNone
                  (Toy.world_with
                     {[ "CMDS" := GCommands [("py3-bt", "py3bt");
                                             ("py3-up", "py3up")] ]}))))
  = [ "command script add -f lldb_utils.py3bt py3-bt";
      "command script add -f lldb_utils.py3up py3-up" ].
Proof.
  rewrite (@lldb_init_module_one_command_per_entry Toy.toy_host tt PyNone
             [("py3-bt", "py3bt"); ("py3-up", "py3up")]).
  - reflexivity.
  - reflexivity.
Defined.

(** An empty namespace. *)
Lemma lldb_init_module_without_cmds_witness :
  @__lldb_init_module Toy.toy_host tt PyNone (Toy.later_world Toy.stack) =
  (Raised (NameError "CMDS"), Toy.later_world Toy.stack).
Proof.
  apply (@lldb_init_module_without_cmds Toy.toy_host tt PyNone
           (Toy.later_world Toy.stack)).
  reflexivity.
Defined.

(** The shipped namespace, registered twice. *)
Lemma lldb_init_module_twice_witness :
  Toy.commands
    (host (snd (@__lldb_init_module Toy.toy_host tt PyNone
                  (snd (@__lldb_init_module Toy.toy_host tt PyNone
                          (Toy.world Toy.stack))))))
  = [ "command script add -f lldb_utils.py3bt py3-bt";
      "command script add -f lldb_utils.py3bt py3-bt" ].
Proof.
  rewrite (@lldb_init_module_twice Toy.toy_host tt PyNone PyNone
             [("py3-bt", "py3bt")] (Toy.world Toy.stack)).
  - reflexivity.
  - reflexivity.
Defined.

(** In the shipped namespace, on a non-null pointer. *)
Lemma type_raises_name_error_witness :
  @type Toy.toy_host (fun _ v => ret (Toy.ptr v))
    (Toy.ptr (Toy.pyframe (Some "app.py") (Some "work"))) (Toy.world Toy.stack)
  = (Raised (NameError "PyTypeObjectPtr"), Toy.world Toy.stack).
Proof.
  apply (proj2 type_raises_name_error). reflexivity.
Defined.

(** [f.f_code.co_name] on a frame object, and on a null [f]. *)
Lemma field_of_field_first_null_witness :
  field_of_field (Toy.ptr (Toy.pyframe (Some "app.py") (Some "work")))
    "f_code" "co_name" (Toy.world Toy.stack)
  = (Ok (Toy.Val 16384 (Some "work") []), Toy.world Toy.stack)
  /\ field_of_field (Toy.ptr Toy.invalid) "f_code" "co_name" (Toy.world Toy.stack)
     = (Raised (NullPyObjectPtr (Toy.ptr Toy.invalid)), Toy.world Toy.stack).
Proof.
  split.
  - apply (proj2 (proj2 (field_of_field_first_null
             (Toy.ptr (Toy.pyframe (Some "app.py") (Some "work")))
             "f_code" "co_name" (Toy.world Toy.stack)))); discriminate.
  - apply (proj1 (field_of_field_first_null (Toy.ptr Toy.invalid)
             "f_code" "co_name" (Toy.world Toy.stack))). reflexivity.
Defined.

(** ** More about [gist_extr] *)

Section GistExtrMore.
Import PyStr PyStrFacts.

Lemma rfind_range s c : -1 <= rfind s c < len s.
Proof.
  induction s as [|a s IH]; cbn [rfind].
  - unfold len. cbn. lia.
  - rewrite len_cons.
    destruct (0 <=? rfind s c) eqn:E; [lia|].
    pose proof (len_nonneg s). destruct (Ascii.eqb a c); lia.
Qed.

Lemma find_range s c : -1 <= find s c < len s.
Proof.
  induction s as [|a s IH]; cbn [find].
  - unfold len. cbn. lia.
  - rewrite len_cons. pose proof (len_nonneg s).
    destruct (Ascii.eqb a c); [lia|].
    destruct (find s c <? 0) eqn:E; lia.
Qed.

Lemma clamp_range n i : 0 <= n -> 0 <= clamp n i <= n.
Proof.
  intros Hn. unfold clamp. cbv zeta.
  destruct (i <? 0) eqn:E1.
  - destruct (i + n <? 0) eqn:E2; [lia|].
    destruct (n <? i + n) eqn:E3; [lia|].
    apply Z.ltb_ge in E2, E3. lia.
  - apply Z.ltb_ge in E1. rewrite (proj2 (Z.ltb_ge i 0) E1).
    destruct (n <? i) eqn:E3; [lia|]. apply Z.ltb_ge in E3. lia.
Qed.

Lemma clamp_below n i : 0 <= n -> -1 <= i < n -> clamp n i <= Z.max 0 (n - 1).
Proof.
  intros Hn Hi. destruct (Z.eq_dec i (-1)) as [->|Hne].
  - rewrite clamp_minus_one by assumption. lia.
  - rewrite clamp_inside by lia. lia.
Qed.

Lemma substring_length n m s : (String.length (String.substring n m s) <= m)%nat.
Proof.
  revert m s. induction n as [|n IH]; intros m s.
  - revert s. induction m as [|m IHm]; intros [|a s]; cbn; try lia.
    specialize (IHm s). lia.
  - destruct s as [|a s]; cbn; [lia | apply IH].
Qed.

Lemma substring_head m s : exists b, s = String.substring 0 m s +:+ b.
Proof.
  revert s. induction m as [|m IH]; intros [|a s]; cbn [String.substring].
  - exists EmptyString. reflexivity.
  - exists (String a s). reflexivity.
  - exists EmptyString. reflexivity.
  - destruct (IH s) as (b & E). exists b. rewrite app_cons, <- E. reflexivity.
Qed.

(** A slice of a string is a piece of that string. *)
Lemma substring_factor n m s :
  exists a b, s = a +:+ String.substring n m s +:+ b.
Proof.
  revert s. induction n as [|n IH]; intros s.
  - destruct (substring_head m s) as (b & E). exists EmptyString, b. exact E.
  - destruct s as [|c s]; cbn [String.substring].
    + exists EmptyString, EmptyString. reflexivity.
    + destruct (IH s) as (a & b & E). exists (String c a), b.
      rewrite app_cons, <- E. reflexivity.
Qed.

(** The first occurrence of a character splits the string. *)
Lemma split_first c s :
  occurs c s = true ->
  exists a rest, s = a +:+ String c rest /\ occurs c a = false.
Proof.
  induction s as [|x s IH]; cbn [occurs]; [discriminate|].
  destruct (Ascii.eqb x c) eqn:E.
  - intros _. apply Ascii.eqb_eq in E. subst x.
    exists EmptyString, s. split; reflexivity.
  - cbn [orb]. intros (a & rest & -> & Ha)%IH.
    exists (String x a), rest. split; [reflexivity|]. cbn [occurs].
    rewrite E, Ha. reflexivity.
Qed.

(** So does the last one. *)
Lemma split_last c s :
  occurs c s = true ->
  exists x b, s = x +:+ String c b /\ occurs c b = false.
Proof.
  induction s as [|y s IH]; cbn [occurs]; [discriminate|].
  destruct (occurs c s) eqn:Es.
  - intros _. destruct (IH eq_refl) as (x & b & -> & Hb).
    exists (String y x), b. split; [reflexivity | assumption].
  - rewrite orb_false_r. intros E%Ascii.eqb_eq. subst y.
    exists EmptyString, s. split; [reflexivity | assumption].
Qed.

Lemma gist_extr_two a m b :
  occurs dquote a = false -> occurs dquote b = false ->
  gist_extr (a +:+ String dquote (m +:+ String dquote b)) = m.
Proof.
  intros Ha Hb. unfold gist_extr.
  rewrite (find_first a dquote _ Ha).
  change (a +:+ String dquote (m +:+ String dquote b))
    with (a +:+ (String dquote m) +:+ String dquote b).
  rewrite <- (PyStrFacts.app_assoc a (String dquote m)) at 2.
  rewrite (rfind_last _ dquote b Hb), len_app, len_cons.
  pose proof (len_nonneg a). pose proof (len_nonneg m). pose proof (len_nonneg b).
  rewrite slice_inside by (repeat rewrite ?len_app, ?len_cons; lia).
  replace (Z.to_nat (len a + (len m + 1) - (len a + 1)))
    with (String.length m) by (unfold len; lia).
  replace (Z.to_nat (len a + 1))
    with (String.length (a +:+ String dquote EmptyString)).
  - change (String dquote m +:+ String dquote b)
      with (String dquote EmptyString +:+ m +:+ String dquote b).
    rewrite <- (PyStrFacts.app_assoc a). apply substring_middle.
  - pose proof (len_app a (String dquote EmptyString)) as L.
    unfold len in *. cbn [String.length] in L. lia.
Qed.

Lemma gist_extr_one a b :
  occurs dquote a = false -> occurs dquote b = false ->
  gist_extr (a +:+ String dquote b) = EmptyString.
Proof.
  intros Ha Hb. unfold gist_extr.
  rewrite (find_first a dquote _ Ha), (rfind_last a dquote b Hb).
  pose proof (len_nonneg a). pose proof (len_nonneg b).
  rewrite slice_inside by (rewrite len_app, len_cons; lia).
  replace (Z.to_nat (len a - (len a + 1))) with 0%nat by lia.
  apply substring_none.
Qed.

(** X11. Whatever the string, [gist_extr s] is a piece of [s] (some prefix
    and some suffix removed) and, unless [s] is empty, it is strictly
    shorter than [s]: at least one character is always dropped. *)
Theorem gist_extr_is_shorter_piece (s : string) :
  (exists a b, s = a +:+ gist_extr s +:+ b) /\
  len (gist_extr s) <= Z.max 0 (len s - 1).
Proof.
  split; [apply substring_factor|].
  unfold gist_extr, slice. cbv zeta.
  pose proof (len_nonneg s) as Hn.
  pose proof (rfind_range s dquote) as Hr.
  pose proof (clamp_range (len s) (find s dquote + 1) Hn) as Hlo.
  pose proof (clamp_below (len s) (rfind s dquote) Hn Hr) as Hhi.
  pose proof (substring_length
                (Z.to_nat (clamp (len s) (find s dquote + 1)))
                (Z.to_nat (clamp (len s) (rfind s dquote)
                           - clamp (len s) (find s dquote + 1))) s) as Hl.
  unfold len at 1. lia.
Qed.

(** X12. A string that contains a double quote splits at its first and last
    double quote, and [gist_extr] returns what lies between them: either
    [s] is [a], a quote, [gist_extr s], a quote and [b], or the first quote
    is also the last, [s] is [a], a quote and [b], and [gist_extr s] is
    empty; [a] and [b] contain no double quote. *)
Theorem gist_extr_splits_at_quotes (s : string) :
  occurs dquote s = true ->
  exists a b,
    occurs dquote a = false /\ occurs dquote b = false /\
    (s = a +:+ String dquote (gist_extr s +:+ String dquote b) \/
     (s = a +:+ String dquote b /\ gist_extr s = EmptyString)).
Proof.
  intros (a & rest & -> & Ha)%split_first.
  destruct (occurs dquote rest) eqn:Er.
  - destruct (split_last _ _ Er) as (m & b & -> & Hb).
    exists a, b. split; [assumption|]. split; [assumption|]. left.
    rewrite (gist_extr_two a m b Ha Hb). reflexivity.
  - exists a, rest. split; [assumption|]. split; [assumption|]. right.
    split; [reflexivity | apply gist_extr_one; assumption].
Qed.

(** On the summary of a string object: an address, then the quoted text. *)
Lemma gist_extr_splits_at_quotes_witness :
  exists a b,
    occurs dquote a = false /\ occurs dquote b = false /\
    ("0x1000 " +:+ String dquote ("app.py" +:+ String dquote "")
       = a +:+ String dquote
           (gist_extr ("0x1000 " +:+ String dquote ("app.py" +:+ String dquote ""))
            +:+ String dquote b) \/
     ("0x1000 " +:+ String dquote ("app.py" +:+ String dquote "")
        = a +:+ String dquote b /\
      gist_extr ("0x1000 " +:+ String dquote ("app.py" +:+ String dquote ""))
        = EmptyString)).
Proof.
  apply (gist_extr_splits_at_quotes
           ("0x1000 " +:+ String dquote ("app.py" +:+ String dquote ""))).
  reflexivity.
Defined.

End GistExtrMore.

(** ** How the arguments of [py3bt] resolve *)

Section Arguments.
Context `{Host}.

(** X13. A call of [py3bt] is the call on its target thread passed
    explicitly: an [SBThread] given as [thread] is used as it is, and any
    other value (none, a string) silently falls back to the selected thread
    of the process of the selected target of [debugger], or of
    [lldb.debugger] when no debugger is given.  Once the thread is passed
    explicitly, [debugger], [command], [result] and [dict] have no
    influence. *)
Theorem py3bt_on_resolved_thread
    (d d' : option SBDebugger) (c r di th c' r' di' : PyArg) (w : World) :
  let fallback :=
    GetSelectedThread (host w)
      (GetProcess (host w)
         (GetSelectedTarget (host w)
            match d with None => lldb_debugger | Some x => x end)) in
  let t := match th with PyThread t => t | _ => fallback end in
  py3bt d c r di th w = py3bt d' c' r' di' (PyThread t) w.
Proof.
  cbv zeta. rewrite !py3bt_run. unfold py3bt_outcome.
  destruct th; reflexivity.
Qed.

End Arguments.
